(** * The [Dataset] / [Dataloder] pair of [biai_script.py]

    A shallow embedding of the indexable dataset (lines 61-121) and of the
    batch loader (lines 124-162), together with the parts of [os], [cv2] and
    [numpy] that these two classes call.  Python exceptions are values of
    [exn]; a computation that may raise has type [result A]. *)

From Stdlib Require Import ZArith Lia Ascii String.
From stdpp Require Import base gmap strings list.

Local Open Scope Z_scope.

(** ** Exceptions and the error monad *)

Inductive exn : Set :=
| IndexError          (* list index out of range *)
| TypeError           (* 'NoneType' object is not iterable *)
| ValueError          (* np.stack: no arrays, or shapes differ *)
| AttributeError      (* 'bool' object has no attribute 'all' *)
| AxisError           (* numpy: axis 2 is out of bounds *)
| CvError             (* cv2.error *)
| OSError             (* os.listdir on a missing directory *)
| ZeroDivisionError.  (* integer division by zero *)

Definition result (A : Type) : Type := (exn + A)%type.

Definition raise {A : Type} (e : exn) : result A := inl e.

#[global] Instance result_ret : MRet result := fun A a => inr a.

#[global] Instance result_bind : MBind result := fun A B f m =>
  match m with
  | inl e => inl e
  | inr a => f a
  end.

(** A list comprehension or [for] loop whose body may raise: elements are
    visited left to right and the first exception aborts the traversal. *)
Fixpoint for_each {A B : Type} (f : A -> result B) (l : list A) : result (list B) :=
  match l with
  | [] => mret []
  | x :: xs => y ← f x; ys ← for_each f xs; mret (y :: ys)
  end.

(** ** Python built-ins *)

(** [l[i]] on a Python list: a negative index counts from the end. *)
Definition py_getitem {A : Type} (l : list A) (i : Z) : result A :=
  let n := Z.of_nat (length l) in
  let k := if i <? 0 then i + n else i in
  if (k <? 0) || (n <=? k) then raise IndexError
  else match l !! Z.to_nat k with
       | Some x => mret x
       | None => raise IndexError
       end.

(** [range(start, stop)]. *)
Definition py_range (start stop : Z) : list Z := seqZ start (stop - start).

(** [a // b] on integers: floor division, raising on a zero divisor. *)
Definition py_floordiv (a b : Z) : result Z :=
  if b =? 0 then raise ZeroDivisionError else mret (a / b).

(** [zip( *data )] for a list of pairs: no pair gives no tuple at all,
    otherwise the tuple of first components and the tuple of second ones. *)
Inductive unzipped (A B : Type) : Type :=
| NoTuples
| TwoTuples (firsts : list A) (seconds : list B).
Arguments NoTuples {A B}.
Arguments TwoTuples {A B} firsts seconds.

Definition py_zip_star {A B : Type} (data : list (A * B)) : unzipped A B :=
  match data with
  | [] => NoTuples
  | _ :: _ => TwoTuples (fst <$> data) (snd <$> data)
  end.

(** ** [os] *)

Fixpoint ends_with_sep (s : string) : bool :=
  match s with
  | EmptyString => false
  | String c EmptyString => bool_decide (c = "/"%char)
  | String _ rest => ends_with_sep rest
  end.

Definition starts_with_sep (s : string) : bool :=
  match s with
  | String c _ => bool_decide (c = "/"%char)
  | EmptyString => false
  end.

(** [os.path.join(a, b)] (posixpath). *)
Definition os_path_join (a b : string) : string :=
  if starts_with_sep b then b
  else if bool_decide (a = "") || ends_with_sep a then a +:+ b
  else a +:+ "/" +:+ b.

(** A pixel of a decoded picture, by colour component. *)
Record rgb : Set := RGB { red : Z; green : Z; blue : Z }.

(** What an image file shows: rows of pixels. *)
Abbreviation picture := (list (list rgb)).

(** The part of the disk the classes read: directory listings, and the
    picture stored under a path when that path is a decodable image file. *)
Record filesystem : Type := {
  dir_entries : string -> option (list string);
  image_file : string -> option picture;
}.

(** [os.listdir(d)]. *)
Definition os_listdir (fs : filesystem) (d : string) : result (list string) :=
  match dir_entries fs d with
  | Some names => mret names
  | None => raise OSError
  end.

(** ** [cv2] and [numpy] *)

(** An operation applied to every element of a two-dimensional array. *)
Definition map2d {A B : Type} (f : A -> B) (a : list (list A)) : list (list B) :=
  fmap (M := list) (fmap (M := list) f) a.

(** Three channel values in array order. *)
Abbreviation pixel := (Z * Z * Z)%type.

(** A [uint8] array of shape (H, W, 3). *)
Abbreviation raster := (list (list pixel)).

(** A boolean array of shape (H, W). *)
Abbreviation plane := (list (list bool)).

(** A float array of shape (H, W, K); the only values that occur are 0.0
    and 1.0, written [0] and [1]. *)
Abbreviation mask_tensor := (list (list (list Z))).

(** The array that holds a picture in B, G, R channel order. *)
Definition loaded (pic : picture) : raster :=
  map2d (fun p => (blue p, green p, red p)) pic.

(** [cv2.imread(path)]: the picture in B, G, R channel order, or [None]
    when the file is missing or cannot be decoded. *)
Definition cv2_imread (fs : filesystem) (path : string) : option raster :=
  loaded <$> image_file fs path.

(** [cv2.cvtColor(image, cv2.COLOR_BGR2RGB)]. *)
Definition cv2_cvtColor_BGR2RGB (image : option raster) : result raster :=
  match image with
  | None => raise CvError
  | Some a => mret (map2d (fun '(c0, c1, c2) => (c2, c1, c0)) a)
  end.

(** The value of [mask == c]: the mask is an array or [None], the colour is
    a length-3 array or [None].  An array is compared element by element,
    the colour being broadcast over the pixels; no element of a number array
    equals [None]; [None == None] is the Python [True]. *)
Inductive eq_value : Set :=
| EqArray3 (a : list (list (bool * bool * bool)))   (* shape (H, W, 3) *)
| EqArray1 (a : bool * bool * bool)                 (* shape (3,) *)
| EqBool (b : bool).                                (* a Python bool *)

Definition channels_eq (p c : pixel) : bool * bool * bool :=
  let '(p0, p1, p2) := p in
  let '(c0, c1, c2) := c in
  (p0 =? c0, p1 =? c1, p2 =? c2).

Definition np_eq (mask : option raster) (c : option pixel) : eq_value :=
  match mask, c with
  | Some m, Some c => EqArray3 (map2d (fun p => channels_eq p c) m)
  | Some m, None => EqArray3 (map2d (fun _ => (false, false, false)) m)
  | None, Some _ => EqArray1 (false, false, false)
  | None, None => EqBool true
  end.

Definition all3 (b : bool * bool * bool) : bool :=
  let '(b0, b1, b2) := b in b0 && b1 && b2.

(** [x.all(axis=2)]. *)
Definition all_axis2 (x : eq_value) : result plane :=
  match x with
  | EqArray3 a => mret (map2d all3 a)
  | EqArray1 _ => raise AxisError
  | EqBool _ => raise AttributeError
  end.

(** Two arrays of rank 2 (rank 3) have the same shape when their rows have
    the same lengths. *)
Definition same_shape2 {A : Type} (a b : list (list A)) : bool :=
  bool_decide (length <$> a = length <$> b).

Definition same_shape3 {A : Type} (a b : list (list (list A))) : bool :=
  bool_decide (fmap (M := list) length <$> a = fmap (M := list) length <$> b).

(** Joining arrays of shape (H, W) along a new last axis: element (i, j) of
    the result lists element (i, j) of every array, in the order given. *)
Fixpoint stack_last {A : Type} (a : list (list A)) (rest : list (list (list A)))
  : list (list (list A)) :=
  match rest with
  | [] => map2d (fun x => [x]) a
  | b :: rest' => zip_with (zip_with cons) a (stack_last b rest')
  end.

(** [np.stack(arrays, axis=-1)] on arrays of rank 2. *)
Definition np_stack_last {A : Type} (arrays : list (list (list A)))
  : result (list (list (list A))) :=
  match arrays with
  | [] => raise ValueError
  | a :: rest =>
      if forallb (same_shape2 a) rest then mret (stack_last a rest)
      else raise ValueError
  end.

(** [np.stack(arrays, axis=0)]: the arrays themselves, in order, under a new
    leading axis. *)
Definition np_stack_first {A : Type} (same_shape : A -> A -> bool) (arrays : list A)
  : result (list A) :=
  match arrays with
  | [] => raise ValueError
  | a :: rest =>
      if forallb (same_shape a) rest then mret arrays else raise ValueError
  end.

(** [x.astype('float')] on a boolean array of rank 3. *)
Definition astype_float (x : list (list (list bool))) : mask_tensor :=
  map2d (fmap (M := list) (fun b : bool => if b then 1 else 0)) x.

(** [np.arange(n)]. *)
Definition np_arange (n : Z) : list Z := seqZ 0 n.

(** ** class Dataset *)

(** An augmentation or preprocessing pipeline, called on an image and its
    mask; it returns the transformed pair or raises. *)
Definition transform : Type := raster * mask_tensor -> result (raster * mask_tensor).

Module Dataset.

Definition CLASSES : gmap string pixel :=
  list_to_map
    [ ("nonmaskingbackground"%string, (0, 0, 255));
      ("maskingbackground"%string, (0, 255, 0));
      ("animal"%string, (255, 0, 0));
      ("nonmaskingforegroundattention"%string, (255, 255, 255));
      ("unlabelled"%string, (0, 0, 0)) ].

Record t : Type := {
  ids : list string;
  images_fps : list string;
  masks_fps : list string;
  class_colors : list (option pixel);
  augmentation : option transform;
  preprocessing : option transform;
}.

(** Lines 79-95.  [classes] is [None] when the argument is left at its
    default. *)
Definition __init__ (fs : filesystem) (images_dir masks_dir : string)
    (classes : option (list string))
    (augmentation preprocessing : option transform) : result t :=
  ids ← os_listdir fs images_dir;
  let images_fps := os_path_join images_dir <$> ids in
  let masks_fps := os_path_join masks_dir <$> ids in
  (* convert str names to class values on masks *)
  class_colors ← match classes with
                 | None => raise TypeError
                 | Some keys => mret ((fun key => CLASSES !! key) <$> keys)
                 end;
  mret {| ids := ids; images_fps := images_fps; masks_fps := masks_fps;
          class_colors := class_colors;
          augmentation := augmentation; preprocessing := preprocessing |}.

(** Lines 105-106: one boolean plane per colour, joined along a new last
    axis and converted to float. *)
Definition extract_classes (mask : option raster) (class_colors : list (option pixel))
  : result mask_tensor :=
  masks ← for_each (fun c => all_axis2 (np_eq mask c)) class_colors;
  stacked ← np_stack_last masks;
  mret (astype_float stacked).

(** [if f: sample = f(image=image, mask=mask)]. *)
Definition apply_if_set (f : option transform) (sample : raster * mask_tensor)
  : result (raster * mask_tensor) :=
  match f with
  | Some g => g sample
  | None => mret sample
  end.

(** Lines 97-118. *)
Definition __getitem__ (fs : filesystem) (self : t) (i : Z)
  : result (raster * mask_tensor) :=
  (* read data *)
  image_path ← py_getitem (images_fps self) i;
  image ← cv2_cvtColor_BGR2RGB (cv2_imread fs image_path);
  mask_path ← py_getitem (masks_fps self) i;
  let mask := cv2_imread fs mask_path in
  (* extract certain classes from mask *)
  mask ← extract_classes mask (class_colors self);
  (* apply augmentations *)
  sample ← apply_if_set (augmentation self) (image, mask);
  (* apply preprocessing *)
  apply_if_set (preprocessing self) sample.

(** Lines 120-121. *)
Definition __len__ (self : t) : Z := Z.of_nat (length (ids self)).

End Dataset.

(** ** class Dataloder *)

Module Dataloder.

Record t : Type := {
  dataset : Dataset.t;
  batch_size : Z;
  shuffle : bool;
  indexes : list Z;
}.

(** What [__getitem__] returns: the list [[]] when no sample was collected,
    otherwise the two-element list of the stacked images and the stacked
    masks. *)
Inductive batch : Type :=
| EmptyBatch
| Batch (images : list raster) (masks : list mask_tensor).

Section Random.

(** The state of numpy's global generator and [np.random.permutation],
    which returns a shuffled copy and advances the generator. *)
Variable rng : Type.
Variable np_random_permutation : rng -> list Z -> list Z * rng.

(** Lines 159-162. *)
Definition on_epoch_end (self : t) (g : rng) : t * rng :=
  if shuffle self then
    let '(shuffled, g') := np_random_permutation g (indexes self) in
    ({| dataset := dataset self; batch_size := batch_size self;
        shuffle := shuffle self; indexes := shuffled |}, g')
  else (self, g).

(** Lines 133-139. *)
Definition __init__ (dataset : Dataset.t) (batch_size : Z) (shuffle : bool)
    (g : rng) : t * rng :=
  on_epoch_end
    {| dataset := dataset; batch_size := batch_size; shuffle := shuffle;
       indexes := np_arange (Dataset.__len__ dataset) |} g.

End Random.

(** Lines 141-153. *)
Definition __getitem__ (fs : filesystem) (self : t) (i : Z) : result batch :=
  (* collect batch data *)
  let start := i * batch_size self in
  let stop := (i + 1) * batch_size self in
  data ← for_each (fun j => Dataset.__getitem__ fs (dataset self) j)
                  (py_range start stop);
  (* transpose list of lists *)
  match py_zip_star data with
  | NoTuples => mret EmptyBatch
  | TwoTuples images masks =>
      image_batch ← np_stack_first same_shape2 images;
      mask_batch ← np_stack_first same_shape3 masks;
      mret (Batch image_batch mask_batch)
  end.

(** Lines 155-157. *)
Definition __len__ (self : t) : result Z :=
  py_floordiv (Z.of_nat (length (indexes self))) (batch_size self).

End Dataloder.

(** ** Vocabulary of the statements *)

(** Whether a loaded pixel shows the colour stored for a class; no colour
    is stored for a name outside [CLASSES], and no pixel shows it. *)
Definition shows (p : pixel) (c : option pixel) : bool :=
  match c with
  | Some c => all3 (channels_eq p c)
  | None => false
  end.

Definition indicator (b : bool) : Z := if b then 1 else 0.

(** Element (r, c) of an array of rank 2 and element (r, c, k) of an array
    of rank 3, when the position exists. *)
Definition at2 {A : Type} (x : list (list A)) (r c : nat) : option A :=
  row ← x !! r; row !! c.

Definition at3 {A : Type} (x : list (list (list A))) (r c k : nat) : option A :=
  chans ← at2 x r c; chans !! k.

(** The shape of an array of rank 2 is (h, w); of an array of rank 3,
    (h, w, k). *)
Definition has_shape2 {A : Type} (x : list (list A)) (h w : nat) : Prop :=
  length x = h /\ Forall (fun row => length row = w) x.

Definition has_shape3 {A : Type} (x : list (list (list A))) (h w k : nat) : Prop :=
  length x = h /\
  Forall (fun row => length row = w /\ Forall (fun chans => length chans = k) row) x.

(** The shape of a stack of images is (n, h, w, 3), three being the number
    of values of a pixel; the shape of a stack of masks is (n, h, w, k). *)
Definition image_batch_has_shape (x : list raster) (n h w c : nat) : Prop :=
  length x = n /\ Forall (fun image => has_shape2 image h w) x /\ c = 3%nat.

Definition mask_batch_has_shape (x : list mask_tensor) (n h w k : nat) : Prop :=
  length x = n /\ Forall (fun mask => has_shape3 mask h w k) x.

(** The decoder of a loaded mask for a list of class names: the lookup of
    line 92 followed by lines 105-106. *)
Definition decode (mask : raster) (class_list : list string) : result mask_tensor :=
  Dataset.extract_classes (Some mask) ((fun key => Dataset.CLASSES !! key) <$> class_list).

(** [x[..., k]] on an array of rank 3. *)
Definition last_axis_at {A : Type} (k : nat) (x : list (list (list A)))
  : result (list (list A)) :=
  for_each (for_each (fun chans : list A =>
                        match chans !! k with
                        | Some v => mret v
                        | None => raise IndexError
                        end)) x.

(** ** Sample file systems *)

Definition picture_a : picture := [[RGB 255 0 0; RGB 0 0 255]].
Definition picture_b : picture := [[RGB 0 255 0; RGB 7 7 7]].

(** Two images, each with its mask. *)
Definition paired_fs : filesystem := {|
  dir_entries := fun d =>
    if bool_decide (d = "images"%string) then Some ["a.png"%string; "b.png"%string]
    else None;
  image_file := fun p =>
    if bool_decide (p = "images/a.png"%string) then Some picture_a
    else if bool_decide (p = "masks/a.png"%string) then Some picture_a
    else if bool_decide (p = "images/b.png"%string) then Some picture_b
    else if bool_decide (p = "masks/b.png"%string) then Some picture_b
    else None;
|}.

(** Two images; the second has no mask. *)
Definition orphan_fs : filesystem := {|
  dir_entries := dir_entries paired_fs;
  image_file := fun p =>
    if bool_decide (p = "masks/b.png"%string) then None else image_file paired_fs p;
|}.

(** The dataset that the constructor builds over [paired_fs] for the class
    list ['animal']. *)
Definition paired_dataset : Dataset.t := {|
  Dataset.ids := ["a.png"%string; "b.png"%string];
  Dataset.images_fps := ["images/a.png"%string; "images/b.png"%string];
  Dataset.masks_fps := ["masks/a.png"%string; "masks/b.png"%string];
  Dataset.class_colors := [Some (255, 0, 0)];
  Dataset.augmentation := None;
  Dataset.preprocessing := None;
|}.

(** A generator that reverses: with it [np.random.permutation] returns its
    argument back to front. *)
Definition reversing : unit -> list Z -> list Z * unit :=
  fun g l => (reverse l, g).

(** A dataset of 17 samples. *)
Definition seventeen_names : list string :=
  ["00.png"; "01.png"; "02.png"; "03.png"; "04.png"; "05.png";
   "06.png"; "07.png"; "08.png"; "09.png"; "10.png"; "11.png";
   "12.png"; "13.png"; "14.png"; "15.png"; "16.png"]%string.

Definition seventeen : Dataset.t := {|
  Dataset.ids := seventeen_names;
  Dataset.images_fps := os_path_join "images" <$> seventeen_names;
  Dataset.masks_fps := os_path_join "masks" <$> seventeen_names;
  Dataset.class_colors := [Some (255, 0, 0)];
  Dataset.augmentation := None;
  Dataset.preprocessing := None;
|}.

(** Ten image and mask pairs of 64 x 64 pixels. *)
Definition black_64 : picture := replicate 64 (replicate 64 (RGB 0 0 0)).

Definition ten_names : list string :=
  ["0.png"; "1.png"; "2.png"; "3.png"; "4.png";
   "5.png"; "6.png"; "7.png"; "8.png"; "9.png"]%string.

Definition ten_pairs_fs : filesystem := {|
  dir_entries := fun d => if bool_decide (d = "images"%string) then Some ten_names else None;
  image_file := fun _ => Some black_64;
|}.

(** ** The rest of the script *)

(** Lines 23-24. *)
Definition width : Z := 800.
Definition height : Z := 600.
Definition min_size : Z := 480.

(** [A.PadIfNeeded(min_height, min_width)], as configured. *)
Record PadIfNeeded : Set := { min_height : Z; min_width : Z }.

(** Lines 229-239: the list of transforms handed to [A.Compose]. *)
Definition get_validation_augmentation (width height : Z) : list PadIfNeeded :=
  let width := if negb (width mod 32 =? 0) then width + (32 - width mod 32) else width in
  let height := if negb (height mod 32 =? 0) then height + (32 - height mod 32) else height in
  let test_transform := [ {| min_height := height; min_width := width |} ] in
  test_transform.

(** Lines 281-282, as functions of the class list [CLASSES] of line 274. *)
Definition n_classes (CLASSES : list string) : Z :=
  if Z.of_nat (length CLASSES) =? 1 then 1 else Z.of_nat (length CLASSES).

Definition activation (CLASSES : list string) : string :=
  if n_classes CLASSES =? 1 then "sigmoid" else "softmax".

(** *** The resizing pass, lines 29-37 *)

(** [s.rfind(c)] for a character: the last position of [c], or -1. *)
Fixpoint rfind (c : ascii) (s : string) : option nat :=
  match s with
  | EmptyString => None
  | String a rest =>
      match rfind c rest with
      | Some i => Some (S i)
      | None => if bool_decide (a = c) then Some O else None
      end
  end.

Definition py_rfind (c : ascii) (s : string) : Z :=
  match rfind c s with
  | Some i => Z.of_nat i
  | None => -1
  end.

(** Whether some character of [s] is not a dot. *)
Fixpoint has_non_dot (s : string) : bool :=
  match s with
  | EmptyString => false
  | String a rest => negb (bool_decide (a = "."%char)) || has_non_dot rest
  end.

(** [os.path.basename(p)] (posixpath): what follows the last separator. *)
Definition os_path_basename (p : string) : string :=
  let i := Z.to_nat (py_rfind "/" p + 1) in
  substring i (String.length p - i) p.

(** [os.path.splitext(p)] (posixpath): the extension starts at the last dot
    of the last component, unless only dots precede it there. *)
Definition os_path_splitext (p : string) : string * string :=
  let sepIndex := py_rfind "/" p in
  let dotIndex := py_rfind "." p in
  if sepIndex <? dotIndex then
    (* skip all leading dots *)
    let filenameIndex := Z.to_nat (sepIndex + 1) in
    if has_non_dot (substring filenameIndex (Z.to_nat dotIndex - filenameIndex) p) then
      (substring 0 (Z.to_nat dotIndex) p,
       substring (Z.to_nat dotIndex) (String.length p - Z.to_nat dotIndex) p)
    else (p, EmptyString)
  else (p, EmptyString).

(** What a file on the disk holds: a picture that [cv2.imread] can decode, or anything
    else. *)
Inductive content : Set :=
| ImageFile (pic : picture)
| OtherFile.

Section Resizer.

(** [cv2.resize(img, (width, height))] followed by [cv2.imwrite], seen on
    pictures: the picture that the written file shows. *)
Variable resized_to : Z -> Z -> picture -> picture.

(** Lines 32-37, the body of the loop for one file of a directory: the disk
    afterwards, and the exception when one is raised. *)
Definition resize_file (disk : gmap string content) (subdir file : string)
  : gmap string content * option exn :=
  let path := os_path_join subdir file in
  match disk !! path with
  | Some (ImageFile img) =>
      let resized := resized_to width height img in
      let disk := delete path disk in
      let write_path := (os_path_splitext path).1 +:+ ".png" in
      (<[write_path := ImageFile resized]> disk, None)
  | _ => (disk, Some CvError)
  end.

(** Lines 31-37: the files of one directory, in the order of the listing. *)
Fixpoint resize_files (disk : gmap string content) (subdir : string) (files : list string)
  : gmap string content * option exn :=
  match files with
  | [] => (disk, None)
  | file :: rest =>
      match resize_file disk subdir file with
      | (disk', None) => resize_files disk' subdir rest
      | (disk', Some e) => (disk', Some e)
      end
  end.

End Resizer.

(** A resampling that returns a black picture of the size asked for. *)
Definition black_resize (w h : Z) (_ : picture) : picture :=
  replicate (Z.to_nat h) (replicate (Z.to_nat w) (RGB 0 0 0)).

(** A directory with two pictures of the same stem, a picture that is a
    PNG already, and a text file. *)
Definition sample_disk : gmap string content :=
  list_to_map
    [ ("dir/a.jpg"%string, ImageFile picture_a);
      ("dir/a.bmp"%string, ImageFile picture_b);
      ("dir/c.png"%string, ImageFile picture_a);
      ("dir/notes.txt"%string, OtherFile) ].

(** ** Further vocabulary and samples *)

(** The sample that a readable pair of files decodes to: the picture of
    the image file in R, G, B order, and for the picture of the mask file one
    channel per class name, 1 where the loaded pixel shows the colour of the
    class. *)
Definition rgb_array (pic : picture) : raster :=
  map2d (fun p => (red p, green p, blue p)) pic.

Definition class_planes (keys : list string) (mpic : picture) : mask_tensor :=
  map2d (fun p => (fun k => indicator (shows p (Dataset.CLASSES !! k))) <$> keys)
        (loaded mpic).

(** The two arrays of a batch; the empty list has none. *)
Definition batch_images (x : Dataloder.batch) : list raster :=
  match x with
  | Dataloder.EmptyBatch => []
  | Dataloder.Batch images _ => images
  end.

Definition batch_masks (x : Dataloder.batch) : list mask_tensor :=
  match x with
  | Dataloder.EmptyBatch => []
  | Dataloder.Batch _ masks => masks
  end.


(** One image of 1 x 2 pixels whose mask has 2 x 1 pixels, and a second
    pair of 2 x 1 pixels. *)
Definition picture_tall : picture := [[RGB 255 0 0]; [RGB 0 0 255]].

Definition uneven_fs : filesystem := {|
  dir_entries := dir_entries paired_fs;
  image_file := fun p =>
    if bool_decide (p = "images/a.png"%string) then Some picture_a
    else if bool_decide (p = "masks/a.png"%string) then Some picture_tall
    else if bool_decide (p = "images/b.png"%string) then Some picture_tall
    else if bool_decide (p = "masks/b.png"%string) then Some picture_tall
    else None;
|}.

(** The listing of [paired_fs] over files none of which is an image. *)
Definition undecodable_fs : filesystem := {|
  dir_entries := dir_entries paired_fs;
  image_file := fun _ => None;
|}.

(** The loader after [n] epoch ends, each drawing from the generator the
    previous one left. *)
Fixpoint after_epochs (rng : Type)
    (np_random_permutation : rng -> list Z -> list Z * rng)
    (n : nat) (self : Dataloder.t) (g : rng) : Dataloder.t * rng :=
  match n with
  | O => (self, g)
  | S n' =>
      let '(self', g') := Dataloder.on_epoch_end rng np_random_permutation self g in
      after_epochs rng np_random_permutation n' self' g'
  end.

(** A loader over [paired_dataset] with both samples in one batch, and the
    two samples that the dataset returns. *)
Definition paired_loader : Dataloder.t := {|
  Dataloder.dataset := paired_dataset;
  Dataloder.batch_size := 2;
  Dataloder.shuffle := false;
  Dataloder.indexes := [0; 1];
|}.


(** Two images of 1 x 2 pixels whose masks have 2 x 1 pixels, and the two
    samples that [paired_dataset] returns over them. *)
Definition crossed_fs : filesystem := {|
  dir_entries := dir_entries paired_fs;
  image_file := fun p =>
    if bool_decide (p = "images/a.png"%string) then Some picture_a
    else if bool_decide (p = "masks/a.png"%string) then Some picture_tall
    else if bool_decide (p = "images/b.png"%string) then Some picture_b
    else if bool_decide (p = "masks/b.png"%string) then Some picture_tall
    else None;
|}.

Definition crossed_sample (j : Z) : raster * mask_tensor :=
  if j =? 0 then ([[(255, 0, 0); (0, 0, 255)]], [[[0]]; [[1]]])
  else ([[(0, 255, 0); (7, 7, 7)]], [[[0]]; [[1]]]).

(** * Properties *)

(** ** The error monad *)

Lemma bind_inr {A B : Type} (f : A -> result B) (a : A) : (inr a ≫= f) = f a.
Proof. reflexivity. Qed.

Lemma bind_mret {A B : Type} (f : A -> result B) (a : A) : (mret a ≫= f) = f a.
Proof. reflexivity. Qed.

Lemma bind_inl {A B : Type} (f : A -> result B) (e : exn) : (inl e ≫= f) = inl e.
Proof. reflexivity. Qed.

Lemma for_each_total {A B : Type} (g : A -> B) (f : A -> result B) (l : list A) :
  (forall x, x ∈ l -> f x = inr (g x)) -> for_each f l = inr (g <$> l).
Proof.
  induction l as [|x l IH]; intros Hf; [reflexivity|].
  cbn [for_each]. rewrite Hf by left. rewrite bind_inr.
  rewrite IH; [reflexivity|]. intros y Hy. apply Hf. by right.
Qed.

Lemma for_each_fmap {A B C : Type} (h : A -> B) (f : B -> result C) (l : list A) :
  for_each f (h <$> l) = for_each (fun x => f (h x)) l.
Proof.
  induction l as [|x l IH]; [reflexivity|].
  cbn [fmap list_fmap for_each]. cbn [fmap] in IH. by rewrite IH.
Qed.

Lemma for_each_head_fails {A B : Type} (f : A -> result B) (x : A) (l : list A) (e : exn) :
  f x = inl e -> for_each f (x :: l) = inl e.
Proof. intros Hx. cbn [for_each]. by rewrite Hx. Qed.

(** ** Subscripting a Python list *)

Lemma py_getitem_nonneg {A : Type} (l : list A) (i : nat) (x : A) :
  l !! i = Some x -> py_getitem l (Z.of_nat i) = inr x.
Proof.
  intros Hx. pose proof (lookup_lt_Some _ _ _ Hx) as Hlt.
  unfold py_getitem.
  destruct (Z.ltb_spec (Z.of_nat i) 0) as [|_]; [lia|].
  destruct (Z.ltb_spec (Z.of_nat i) 0) as [|_]; [lia|].
  destruct (Z.leb_spec (Z.of_nat (length l)) (Z.of_nat i)) as [|_]; [lia|].
  cbn [orb]. by rewrite Nat2Z.id, Hx.
Qed.

Lemma py_getitem_negative {A : Type} (l : list A) (i : Z) :
  - Z.of_nat (length l) <= i < 0 ->
  py_getitem l i = py_getitem l (Z.of_nat (length l) + i).
Proof.
  intros Hi. unfold py_getitem.
  destruct (Z.ltb_spec i 0) as [_|]; [|lia].
  destruct (Z.ltb_spec (Z.of_nat (length l) + i) 0) as [|_]; [lia|].
  by rewrite (Z.add_comm i).
Qed.


Lemma py_getitem_in_range {A : Type} (l : list A) (i : Z) :
  - Z.of_nat (length l) <= i < Z.of_nat (length l) ->
  exists x, py_getitem l i = inr x.
Proof.
  intros Hi. destruct (Z.ltb_spec i 0) as [Hneg|Hpos].
  - rewrite py_getitem_negative by lia.
    destruct (lookup_lt_is_Some_2 l (Z.to_nat (Z.of_nat (length l) + i))) as [x Hx]; [lia|].
    exists x. rewrite <- (Z2Nat.id (Z.of_nat (length l) + i)) by lia.
    by apply py_getitem_nonneg.
  - destruct (lookup_lt_is_Some_2 l (Z.to_nat i)) as [x Hx]; [lia|].
    exists x. rewrite <- (Z2Nat.id i) by lia. by apply py_getitem_nonneg.
Qed.

(** ** Elementwise operations and stacking *)

Lemma map2d_map2d {A B C : Type} (f : A -> B) (g : B -> C) (a : list (list A)) :
  map2d g (map2d f a) = map2d (fun x => g (f x)) a.
Proof.
  unfold map2d. rewrite <- list_fmap_compose. apply list_fmap_ext.
  intros _ row _. cbn. by rewrite <- list_fmap_compose.
Qed.

Lemma map2d_ext {A B : Type} (f g : A -> B) (a : list (list A)) :
  (forall x, f x = g x) -> map2d f a = map2d g a.
Proof.
  intros Hfg. unfold map2d. apply list_fmap_ext. intros _ row _.
  apply list_fmap_ext. auto.
Qed.

Lemma map2d_row_lengths {A B : Type} (f : A -> B) (a : list (list A)) :
  length <$> map2d f a = length <$> a.
Proof.
  unfold map2d. rewrite <- list_fmap_compose. apply list_fmap_ext.
  intros _ row _. cbn. apply length_fmap.
Qed.

Lemma map2d_lookup {A B : Type} (f : A -> B) (a : list (list A)) (r c : nat) :
  at2 (map2d f a) r c = f <$> at2 a r c.
Proof.
  unfold at2, map2d. rewrite list_lookup_fmap.
  destruct (a !! r) as [row|]; [|reflexivity]. cbn. apply list_lookup_fmap.
Qed.

Lemma zip_with_cons_map2d {A B : Type} (f : A -> B) (g : A -> list B) (a : list (list A)) :
  zip_with (zip_with cons) (map2d f a) (map2d g a) = map2d (fun x => f x :: g x) a.
Proof.
  unfold map2d. induction a as [|row a IH]; [reflexivity|].
  cbn. f_equal; [|exact IH].
  clear IH. induction row as [|x row IH]; [reflexivity|]. cbn. by f_equal.
Qed.

(** Planes computed from one array by elementwise tests stack into the
    array of the lists of test results. *)
Lemma stack_last_map2d {A B C : Type} (f : C -> A -> B) (a : list (list A))
    (c : C) (cs : list C) :
  stack_last (map2d (f c) a) ((fun c' => map2d (f c') a) <$> cs)
  = map2d (fun x => (fun c' => f c' x) <$> (c :: cs)) a.
Proof.
  revert c. induction cs as [|c' cs IH]; intros c.
  - cbn. apply map2d_map2d.
  - cbn [fmap list_fmap stack_last]. cbn [fmap] in IH. rewrite IH.
    apply zip_with_cons_map2d.
Qed.

Lemma forallb_same_shape2_map2d {A B C : Type} (f : C -> A -> B) (a : list (list A))
    (c : C) (cs : list C) :
  forallb (same_shape2 (map2d (f c) a)) ((fun c' => map2d (f c') a) <$> cs) = true.
Proof.
  apply forallb_forall. intros p Hp. apply list_elem_of_In, list_elem_of_fmap in Hp.
  destruct Hp as (c' & -> & _). unfold same_shape2. apply bool_decide_eq_true.
  by rewrite !map2d_row_lengths.
Qed.

(** ** Extraction of the class planes *)

Lemma extract_classes_array (m : raster) (c : option pixel) (cs : list (option pixel)) :
  Dataset.extract_classes (Some m) (c :: cs)
  = inr (map2d (fun p => (fun c' => indicator (shows p c')) <$> (c :: cs)) m).
Proof.
  unfold Dataset.extract_classes.
  rewrite (for_each_total (fun c' => map2d (fun p => shows p c') m)).
  2:{ intros [c'|] _; cbn; by rewrite map2d_map2d. }
  rewrite bind_inr. cbn [fmap list_fmap np_stack_last].
  pose proof (forallb_same_shape2_map2d (fun c' p => shows p c') m c cs) as Hs.
  cbn [fmap] in Hs. rewrite Hs.
  pose proof (stack_last_map2d (fun c' p => shows p c') m c cs) as Hst.
  cbn [fmap] in Hst. rewrite Hst. cbn. f_equal.
  unfold astype_float. rewrite map2d_map2d. apply map2d_ext.
  intros p. cbn. f_equal. rewrite <- list_fmap_compose. reflexivity.
Qed.

Lemma extract_classes_no_class (mask : option raster) :
  Dataset.extract_classes mask [] = inl ValueError.
Proof. reflexivity. Qed.

Lemma extract_classes_no_mask (c : option pixel) (cs : list (option pixel)) :
  Dataset.extract_classes None (c :: cs)
  = inl (match c with Some _ => AxisError | None => AttributeError end).
Proof. destruct c; reflexivity. Qed.

(** ** [Dataset.__init__] and [Dataset.__getitem__] *)

Lemma init_with_classes fs images_dir masks_dir names keys aug pre :
  dir_entries fs images_dir = Some names ->
  Dataset.__init__ fs images_dir masks_dir (Some keys) aug pre
  = inr {| Dataset.ids := names;
           Dataset.images_fps := os_path_join images_dir <$> names;
           Dataset.masks_fps := os_path_join masks_dir <$> names;
           Dataset.class_colors := (fun key => Dataset.CLASSES !! key) <$> keys;
           Dataset.augmentation := aug;
           Dataset.preprocessing := pre |}.
Proof. intros Hls. unfold Dataset.__init__, os_listdir. by rewrite Hls. Qed.

Lemma getitem_at fs (ds : Dataset.t) (i : nat) (ipath mpath : string) :
  Dataset.images_fps ds !! i = Some ipath ->
  Dataset.masks_fps ds !! i = Some mpath ->
  Dataset.__getitem__ fs ds (Z.of_nat i)
  = (image ← cv2_cvtColor_BGR2RGB (cv2_imread fs ipath);
     mask ← Dataset.extract_classes (cv2_imread fs mpath) (Dataset.class_colors ds);
     sample ← Dataset.apply_if_set (Dataset.augmentation ds) (image, mask);
     Dataset.apply_if_set (Dataset.preprocessing ds) sample).
Proof.
  intros Hi Hm. unfold Dataset.__getitem__.
  rewrite (py_getitem_nonneg _ _ _ Hi), bind_inr.
  destruct (cv2_cvtColor_BGR2RGB (cv2_imread fs ipath)) as [e|image]; [reflexivity|].
  rewrite !bind_inr. by rewrite (py_getitem_nonneg _ _ _ Hm), bind_inr.
Qed.

Lemma cv2_imread_file fs path pic :
  image_file fs path = Some pic -> cv2_imread fs path = Some (loaded pic).
Proof. intros Hpic. unfold cv2_imread. by rewrite Hpic. Qed.

Lemma cv2_imread_no_file fs path :
  image_file fs path = None -> cv2_imread fs path = None.
Proof. intros Hpic. unfold cv2_imread. by rewrite Hpic. Qed.

Lemma cvtColor_loaded pic :
  cv2_cvtColor_BGR2RGB (Some (loaded pic))
  = inr (map2d (fun p => (red p, green p, blue p)) pic).
Proof. cbn. unfold loaded. by rewrite map2d_map2d. Qed.

(** A sample whose two files can be read, in a dataset without transforms. *)
Lemma getitem_of_readable_pair fs images_dir masks_dir names key keys (i : nat) name pic mpic ds :
  Dataset.__init__ fs images_dir masks_dir (Some (key :: keys)) None None = inr ds ->
  dir_entries fs images_dir = Some names ->
  names !! i = Some name ->
  image_file fs (os_path_join images_dir name) = Some pic ->
  image_file fs (os_path_join masks_dir name) = Some mpic ->
  Dataset.__getitem__ fs ds (Z.of_nat i)
  = inr (map2d (fun p => (red p, green p, blue p)) pic,
         map2d (fun p => (fun k => indicator (shows p (Dataset.CLASSES !! k))) <$> (key :: keys))
               (loaded mpic)).
Proof.
  intros Hds Hls Hname Hpic Hmpic.
  rewrite (init_with_classes _ _ _ _ _ _ _ Hls) in Hds. injection Hds as <-.
  rewrite (getitem_at _ _ _ (os_path_join images_dir name) (os_path_join masks_dir name)).
  2,3: cbn; by rewrite list_lookup_fmap, Hname.
  rewrite (cv2_imread_file _ _ _ Hpic), (cv2_imread_file _ _ _ Hmpic).
  rewrite cvtColor_loaded, bind_inr.
  cbn [Dataset.class_colors Dataset.augmentation Dataset.preprocessing].
  change ((fun k => Dataset.CLASSES !! k) <$> key :: keys)
    with (Dataset.CLASSES !! key :: ((fun k => Dataset.CLASSES !! k) <$> keys)).
  rewrite extract_classes_array, bind_inr. cbn [Dataset.apply_if_set].
  rewrite !bind_mret. f_equal. f_equal. apply map2d_ext. intros p.
  change ((fun k => indicator (shows p (Dataset.CLASSES !! k))) <$> key :: keys)
    with (indicator (shows p (Dataset.CLASSES !! key))
          :: ((fun k => indicator (shows p (Dataset.CLASSES !! k))) <$> keys)).
  cbn [fmap list_fmap]. f_equal. fold (@fmap list _).
  by rewrite <- list_fmap_compose.
Qed.

Lemma map2d_lookup_Some {A B : Type} (f : A -> B) (a : list (list A)) (r c : nat) (y : B) :
  at2 (map2d f a) r c = Some y ->
  exists x, at2 a r c = Some x /\ y = f x.
Proof.
  rewrite map2d_lookup. destruct (at2 a r c) as [x|]; [|discriminate].
  cbn. intros [= <-]. eauto.
Qed.

(** * The claims about [Dataset] *)

(** C1, as stated, fails: the name "foo" is not in the palette, yet the
    dataset is constructed and its first sample is returned, with a plane of
    zeros for "foo". *)
Lemma unknown_class_not_rejected :
  Dataset.CLASSES !! "foo"%string = None /\
  exists ds,
    Dataset.__init__ paired_fs "images" "masks" (Some ["foo"%string]) None None = inr ds /\
    Dataset.__getitem__ paired_fs ds 0
    = inr ([[(255, 0, 0); (0, 0, 255)]], [[[0]; [0]]]).
Proof. split; [reflexivity|]. eexists. split; reflexivity. Qed.

(** C1, amended: a class list with a name outside the palette is accepted.
    Construction succeeds, a sample whose image and mask files can be read is
    returned, and in its mask the channel of the unknown name is 0 at every
    pixel. *)
Theorem unknown_class_zero_plane fs images_dir masks_dir names keys (k i : nat)
    key name pic mpic :
  dir_entries fs images_dir = Some names ->
  keys !! k = Some key ->
  Dataset.CLASSES !! key = None ->
  names !! i = Some name ->
  image_file fs (os_path_join images_dir name) = Some pic ->
  image_file fs (os_path_join masks_dir name) = Some mpic ->
  exists ds (image : raster) (mask : mask_tensor),
    Dataset.__init__ fs images_dir masks_dir (Some keys) None None = inr ds /\
    Dataset.__getitem__ fs ds (Z.of_nat i) = inr (image, mask) /\
    forall (r c : nat) chans,
      at2 mask r c = Some chans -> chans !! k = Some 0.
Proof.
  intros Hls Hk Hkey Hname Hpic Hmpic.
  destruct keys as [|key0 keys]; [discriminate|].
  eexists _, _, _. split; [by apply init_with_classes|].
  split.
  - eapply getitem_of_readable_pair; eauto using init_with_classes.
  - intros r c chans Hch. apply map2d_lookup_Some in Hch as (p & _ & ->).
    rewrite list_lookup_fmap, Hk. cbn [fmap option_fmap option_map]. by rewrite Hkey.
Qed.

Lemma unknown_class_zero_plane_witness :
  exists ds (image : raster) (mask : mask_tensor),
    Dataset.__init__ paired_fs "images" "masks"
      (Some ["animal"%string; "foo"%string]) None None = inr ds /\
    Dataset.__getitem__ paired_fs ds (Z.of_nat 1) = inr (image, mask) /\
    forall (r c : nat) chans,
      at2 mask r c = Some chans -> chans !! 1%nat = Some 0.
Proof.
  apply (unknown_class_zero_plane paired_fs "images" "masks"
           ["a.png"%string; "b.png"%string] ["animal"%string; "foo"%string]
           1 1 "foo" "b.png" picture_b picture_b); reflexivity.
Defined.

(** C3, as stated, fails: the mask picture's pixel is red, (255, 0, 0) in
    R, G, B, which is the palette colour of "animal", and the "animal"
    channel is 0 there. *)
Lemma rgb_equal_to_palette_not_marked :
  image_file paired_fs "masks/a.png" = Some [[RGB 255 0 0; RGB 0 0 255]] /\
  Dataset.CLASSES !! "animal"%string = Some (255, 0, 0) /\
  exists ds image,
    Dataset.__init__ paired_fs "images" "masks" (Some ["animal"%string]) None None = inr ds /\
    Dataset.__getitem__ paired_fs ds 0 = inr (image, [[[0]; [1]]]).
Proof. split; [reflexivity|]. split; [reflexivity|]. eexists _, _. split; reflexivity. Qed.

(** C3, amended: in a dataset without augmentation and preprocessing, the
    mask returned for a readable image and mask pair has the height and
    width of the mask picture and one channel per class of the class list, in
    list order; at pixel (r, c), channel k is 1 or 0, and it is 1 iff the
    palette holds a colour for the k-th class and that colour equals the
    pixel as [cv2.imread] loads it, that is, in blue, green, red order. *)
Theorem mask_channel_matches_loaded_pixel fs images_dir masks_dir names key keys
    (i : nat) name pic mpic :
  dir_entries fs images_dir = Some names ->
  names !! i = Some name ->
  image_file fs (os_path_join images_dir name) = Some pic ->
  image_file fs (os_path_join masks_dir name) = Some mpic ->
  exists ds (image : raster) (mask : mask_tensor),
    Dataset.__init__ fs images_dir masks_dir (Some (key :: keys)) None None = inr ds /\
    Dataset.__getitem__ fs ds (Z.of_nat i) = inr (image, mask) /\
    length <$> mask = length <$> mpic /\
    (forall (r c : nat) chans,
        at2 mask r c = Some chans -> length chans = length (key :: keys)) /\
    forall (r c k : nat) p class,
      at2 mpic r c = Some p ->
      (key :: keys) !! k = Some class ->
      exists v,
        at3 mask r c k = Some v /\
        (v = 1 \/ v = 0) /\
        (v = 1 <-> Dataset.CLASSES !! class = Some (blue p, green p, red p)).
Proof.
  intros Hls Hname Hpic Hmpic.
  eexists _, _, _. split; [by apply init_with_classes|].
  split; [eapply getitem_of_readable_pair; eauto using init_with_classes|].
  split; [unfold loaded; by rewrite !map2d_row_lengths|].
  split.
  - intros r c chans Hch. apply map2d_lookup_Some in Hch as (p & _ & ->).
    by rewrite !length_fmap.
  - intros r c k p class Hp Hclass.
    unfold at3, loaded. rewrite map2d_map2d, map2d_lookup, Hp. cbn [fmap option_fmap option_map mbind option_bind].
    rewrite list_lookup_fmap, Hclass. cbn [fmap option_fmap option_map].
    eexists. split; [reflexivity|].
    destruct (Dataset.CLASSES !! class) as [[[c0 c1] c2]|]; cbn.
    + destruct (Z.eqb_spec (blue p) c0), (Z.eqb_spec (green p) c1),
        (Z.eqb_spec (red p) c2); cbn; (split; [auto|]);
        split; intros H; try discriminate; try congruence.
    + split; [auto|]. split; discriminate.
Qed.

Lemma mask_channel_matches_loaded_pixel_witness :
  exists ds (image : raster) (mask : mask_tensor),
    Dataset.__init__ paired_fs "images" "masks"
      (Some ["animal"%string; "maskingbackground"%string]) None None = inr ds /\
    Dataset.__getitem__ paired_fs ds (Z.of_nat 0) = inr (image, mask) /\
    length <$> mask = length <$> picture_a /\
    (forall (r c : nat) chans,
        at2 mask r c = Some chans ->
        length chans = length ["animal"%string; "maskingbackground"%string]) /\
    forall (r c k : nat) p class,
      at2 picture_a r c = Some p ->
      ["animal"%string; "maskingbackground"%string] !! k = Some class ->
      exists v,
        at3 mask r c k = Some v /\
        (v = 1 \/ v = 0) /\
        (v = 1 <-> Dataset.CLASSES !! class = Some (blue p, green p, red p)).
Proof.
  apply (mask_channel_matches_loaded_pixel paired_fs "images" "masks"
           ["a.png"%string; "b.png"%string] "animal" ["maskingbackground"%string]
           0 "a.png" picture_a picture_a); reflexivity.
Defined.

(** C5: an id listed in the image directory whose mask file is absent does
    not stop the construction; the call of get for that id fails.  The
    exception comes from the comparison of the missing mask with the class
    colours, or before that from the image when it cannot be read either. *)
Theorem missing_mask_fails_at_get fs images_dir masks_dir names keys aug pre
    (i : nat) name :
  dir_entries fs images_dir = Some names ->
  names !! i = Some name ->
  image_file fs (os_path_join masks_dir name) = None ->
  exists ds,
    Dataset.__init__ fs images_dir masks_dir (Some keys) aug pre = inr ds /\
    Dataset.__getitem__ fs ds (Z.of_nat i)
    = inl (match image_file fs (os_path_join images_dir name) with
           | None => CvError
           | Some _ =>
               match keys with
               | [] => ValueError
               | key :: _ =>
                   match Dataset.CLASSES !! key with
                   | Some _ => AxisError
                   | None => AttributeError
                   end
               end
           end).
Proof.
  intros Hls Hname Hmask. eexists. split; [by apply init_with_classes|].
  rewrite (getitem_at _ _ _ (os_path_join images_dir name) (os_path_join masks_dir name)).
  2,3: cbn; by rewrite list_lookup_fmap, Hname.
  destruct (image_file fs (os_path_join images_dir name)) as [pic|] eqn:Hpic.
  - rewrite (cv2_imread_file _ _ _ Hpic), cvtColor_loaded, bind_inr.
    rewrite (cv2_imread_no_file _ _ Hmask).
    cbn [Dataset.class_colors]. destruct keys as [|key keys]; [reflexivity|].
    change ((fun k => Dataset.CLASSES !! k) <$> key :: keys)
      with (Dataset.CLASSES !! key :: ((fun k => Dataset.CLASSES !! k) <$> keys)).
    rewrite extract_classes_no_mask. by destruct (Dataset.CLASSES !! key).
  - by rewrite (cv2_imread_no_file _ _ Hpic).
Qed.

Lemma missing_mask_fails_at_get_witness :
  exists ds,
    Dataset.__init__ orphan_fs "images" "masks" (Some ["animal"%string]) None None = inr ds /\
    Dataset.__getitem__ orphan_fs ds (Z.of_nat 1) = inl AxisError.
Proof.
  apply (missing_mask_fails_at_get orphan_fs "images" "masks"
           ["a.png"%string; "b.png"%string] ["animal"%string] None None 1 "b.png");
    reflexivity.
Defined.

Lemma last_axis_at_head {A B : Type} (f : A -> B) (g : A -> list B) (a : list (list A)) :
  last_axis_at 0 (map2d (fun x => f x :: g x) a) = inr (map2d f a).
Proof.
  unfold last_axis_at, map2d. rewrite for_each_fmap.
  apply (for_each_total (fmap (M := list) f)).
  intros row _. rewrite for_each_fmap. by apply for_each_total.
Qed.

(** C8: decoding is a function of the mask and the class list, and the
    first channel of the decoding for two classes is the decoding for the
    first class alone: both are the plane of the pixels that show the colour
    of that class. *)
Theorem decode_first_channel (mask : raster) (c c1 c2 : string) :
  decode mask [c] = decode mask [c] /\
  decode mask [c1; c2] ≫= last_axis_at 0 = decode mask [c1] ≫= last_axis_at 0 /\
  decode mask [c1] ≫= last_axis_at 0
  = inr (map2d (fun p => indicator (shows p (Dataset.CLASSES !! c1))) mask).
Proof.
  split; [reflexivity|]. unfold decode.
  change ((fun key => Dataset.CLASSES !! key) <$> [c1; c2])
    with [Dataset.CLASSES !! c1; Dataset.CLASSES !! c2].
  change ((fun key => Dataset.CLASSES !! key) <$> [c1])
    with [Dataset.CLASSES !! c1].
  rewrite !extract_classes_array, !bind_inr.
  cbn [fmap list_fmap].
  rewrite (last_axis_at_head (fun p => indicator (shows p (Dataset.CLASSES !! c1)))
             (fun p => [indicator (shows p (Dataset.CLASSES !! c2))])).
  rewrite (last_axis_at_head (fun p => indicator (shows p (Dataset.CLASSES !! c1)))
             (fun _ => [])).
  by split.
Qed.

(** C10: with the class list left at its default [None], construction
    never returns a dataset: once the image directory has been listed, the
    iteration over the class list raises a type error (when the directory
    cannot be listed, that failure comes first). *)
Theorem init_without_classes_fails fs images_dir masks_dir aug pre :
  Dataset.__init__ fs images_dir masks_dir None aug pre
  = inl (match dir_entries fs images_dir with
         | Some _ => TypeError
         | None => OSError
         end).
Proof.
  unfold Dataset.__init__, os_listdir.
  by destruct (dir_entries fs images_dir).
Qed.

(** * The claims about [Dataloder] *)

Section Loader.

Variable rng : Type.
Variable np_random_permutation : rng -> list Z -> list Z * rng.

(** [np.random.permutation] returns a rearrangement of its argument. *)
Hypothesis permutation_permutes :
  forall g l, (np_random_permutation g l).1 ≡ₚ l.

Lemma on_epoch_end_length self g :
  length (Dataloder.indexes (Dataloder.on_epoch_end rng np_random_permutation self g).1)
  = length (Dataloder.indexes self).
Proof.
  unfold Dataloder.on_epoch_end. destruct (Dataloder.shuffle self); [|reflexivity].
  pose proof (permutation_permutes g (Dataloder.indexes self)) as Hp.
  destruct (np_random_permutation g (Dataloder.indexes self)) as [l g'].
  cbn in *. by rewrite Hp.
Qed.

Lemma on_epoch_end_fields self g :
  Dataloder.dataset (Dataloder.on_epoch_end rng np_random_permutation self g).1
  = Dataloder.dataset self /\
  Dataloder.batch_size (Dataloder.on_epoch_end rng np_random_permutation self g).1
  = Dataloder.batch_size self.
Proof.
  unfold Dataloder.on_epoch_end. destruct (Dataloder.shuffle self); [|done].
  by destruct (np_random_permutation g (Dataloder.indexes self)).
Qed.

Lemma init_indexes_length ds bs shuffle g :
  Z.of_nat (length (Dataloder.indexes
                      (Dataloder.__init__ rng np_random_permutation ds bs shuffle g).1))
  = Dataset.__len__ ds.
Proof.
  unfold Dataloder.__init__. rewrite on_epoch_end_length. cbn.
  unfold np_arange, Dataset.__len__. rewrite length_seqZ. lia.
Qed.

Lemma init_fields ds bs shuffle g :
  Dataloder.dataset (Dataloder.__init__ rng np_random_permutation ds bs shuffle g).1 = ds /\
  Dataloder.batch_size (Dataloder.__init__ rng np_random_permutation ds bs shuffle g).1 = bs.
Proof. unfold Dataloder.__init__. apply on_epoch_end_fields. Qed.

Lemma len_of_constructed ds bs shuffle g :
  bs <> 0 ->
  Dataloder.__len__ (Dataloder.__init__ rng np_random_permutation ds bs shuffle g).1
  = inr (Dataset.__len__ ds / bs).
Proof.
  intros Hbs. unfold Dataloder.__len__.
  rewrite init_indexes_length, (proj2 (init_fields ds bs shuffle g)).
  unfold py_floordiv. by destruct (Z.eqb_spec bs 0).
Qed.

End Loader.

(** C4: the loader built over a dataset of N samples with a batch size
    bs >= 1 has length floor(N / bs), also after a re-shuffle at an epoch
    end; that many whole batches fit and fewer than bs samples are left
    over, which no batch delivers. *)
Theorem loader_length_is_floor (rng : Type)
    (np_random_permutation : rng -> list Z -> list Z * rng) ds bs shuffle g g' :
  (forall g l, (np_random_permutation g l).1 ≡ₚ l) ->
  0 < bs ->
  let loader := (Dataloder.__init__ rng np_random_permutation ds bs shuffle g).1 in
  let N := Dataset.__len__ ds in
  Dataloder.__len__ loader = inr (N / bs) /\
  Dataloder.__len__ (Dataloder.on_epoch_end rng np_random_permutation loader g').1
  = inr (N / bs) /\
  (N / bs) * bs <= N < (N / bs + 1) * bs.
Proof.
  intros Hperm Hbs loader N. split; [apply len_of_constructed; [done|lia]|]. split.
  - unfold Dataloder.__len__. rewrite on_epoch_end_length by done.
    rewrite (proj2 (on_epoch_end_fields rng np_random_permutation loader g')).
    apply (len_of_constructed rng np_random_permutation Hperm ds bs shuffle g). lia.
  - pose proof (Z.mul_div_le N bs Hbs). pose proof (Z.mul_succ_div_gt N bs Hbs). lia.
Qed.

Lemma loader_length_is_floor_witness :
  Dataloder.__len__ (Dataloder.__init__ unit reversing seventeen 8 true tt).1 = inr 2.
Proof.
  refine (proj1 (loader_length_is_floor unit reversing seventeen 8 true tt tt _ _)).
  - intros g l. apply reverse_Permutation.
  - lia.
Defined.

(** C2: the batch that [__getitem__] gathers does not depend on the index
    permutation.  Re-shuffling at an epoch end leaves every batch as it was;
    with the two-sample dataset and a generator that reverses, the
    permutation is [1; 0], and batch 0 still holds sample 0 and not the
    sample at the first entry of the permutation. *)
Theorem get_batch_ignores_permutation :
  (forall (rng : Type) (np_random_permutation : rng -> list Z -> list Z * rng)
          fs self g b,
      Dataloder.__getitem__ fs (Dataloder.on_epoch_end rng np_random_permutation self g).1 b
      = Dataloder.__getitem__ fs self b) /\
  let loader := (Dataloder.__init__ unit reversing paired_dataset 1 true tt).1 in
  Dataloder.indexes loader = [1; 0] /\
  Dataloder.__getitem__ paired_fs loader 0
  = (sample ← Dataset.__getitem__ paired_fs paired_dataset 0;
     mret (Dataloder.Batch [sample.1] [sample.2])) /\
  Dataloder.__getitem__ paired_fs loader 0
  <> (sample ← Dataset.__getitem__ paired_fs paired_dataset 1;
      mret (Dataloder.Batch [sample.1] [sample.2])).
Proof.
  split.
  - intros rng perm fs self g b. unfold Dataloder.__getitem__.
    destruct (on_epoch_end_fields rng perm self g) as [-> ->]. reflexivity.
  - split; [reflexivity|]. split; [reflexivity|]. vm_compute. discriminate.
Qed.

(** ** Index errors *)



Lemma init_lengths fs images_dir masks_dir classes aug pre ds :
  Dataset.__init__ fs images_dir masks_dir classes aug pre = inr ds ->
  length (Dataset.images_fps ds) = length (Dataset.ids ds) /\
  length (Dataset.masks_fps ds) = length (Dataset.ids ds).
Proof.
  unfold Dataset.__init__, os_listdir.
  destruct (dir_entries fs images_dir) as [names|]; [|discriminate].
  destruct classes as [keys|]; [|discriminate].
  intros [= <-]. cbn. by rewrite !length_fmap.
Qed.


(** ** Shapes *)

Lemma has_shape2_map2d {A B : Type} (f : A -> B) (a : list (list A)) (h w : nat) :
  has_shape2 a h w -> has_shape2 (map2d f a) h w.
Proof.
  intros [Hh Hw]. unfold has_shape2, map2d. rewrite length_fmap. split; [done|].
  apply Forall_fmap. eapply Forall_impl; [exact Hw|].
  intros row Hrow. cbn. by rewrite length_fmap.
Qed.

Lemma has_shape3_map2d {A B : Type} (f : A -> list B) (a : list (list A)) (h w k : nat) :
  has_shape2 a h w -> (forall x, length (f x) = k) -> has_shape3 (map2d f a) h w k.
Proof.
  intros [Hh Hw] Hk. unfold has_shape3, map2d. rewrite length_fmap. split; [done|].
  apply Forall_fmap. eapply Forall_impl; [exact Hw|].
  intros row Hrow. cbn. rewrite length_fmap. split; [done|].
  apply Forall_fmap, Forall_forall. intros x _. apply Hk.
Qed.

Lemma has_shape2_row_lengths {A : Type} (a : list (list A)) (h w : nat) :
  has_shape2 a h w -> length <$> a = replicate h w.
Proof.
  intros [<- Hw]. induction Hw as [|row a Hrow _ IH]; [reflexivity|].
  cbn. by rewrite Hrow, <- IH.
Qed.

Lemma has_shape3_row_lengths {A : Type} (a : list (list (list A))) (h w k : nat) :
  has_shape3 a h w k ->
  fmap (M := list) length <$> a = replicate h (replicate w k).
Proof.
  intros [<- Hw]. induction Hw as [|row a [Hrow Hch] _ IH]; [reflexivity|].
  cbn [fmap list_fmap length replicate]. cbn [fmap] in IH. rewrite IH. f_equal.
  rewrite <- Hrow. clear -Hch.
  induction Hch as [|chans row Hc _ IH]; [reflexivity|].
  cbn. by rewrite Hc, <- IH.
Qed.

Lemma same_shape2_of_shapes {A : Type} (a b : list (list A)) (h w : nat) :
  has_shape2 a h w -> has_shape2 b h w -> same_shape2 a b = true.
Proof.
  intros Ha Hb. apply bool_decide_eq_true.
  by rewrite (has_shape2_row_lengths _ _ _ Ha), (has_shape2_row_lengths _ _ _ Hb).
Qed.

Lemma same_shape3_of_shapes {A : Type} (a b : list (list (list A))) (h w k : nat) :
  has_shape3 a h w k -> has_shape3 b h w k -> same_shape3 a b = true.
Proof.
  intros Ha Hb. apply bool_decide_eq_true.
  by rewrite (has_shape3_row_lengths _ _ _ _ Ha), (has_shape3_row_lengths _ _ _ _ Hb).
Qed.

(** ** Batches *)

Lemma np_stack_first_returns {A : Type} (same_shape : A -> A -> bool) (l l' : list A) :
  np_stack_first same_shape l = inr l' -> l' = l.
Proof.
  unfold np_stack_first. destruct l as [|a rest]; [discriminate|].
  destruct (forallb (same_shape a) rest); [|discriminate]. by intros [= <-].
Qed.

(** What a returned batch holds: the images of the gathered samples, in
    order, and their masks, in the same order. *)
Lemma get_batch_stacks_samples fs self b images masks :
  Dataloder.__getitem__ fs self b = inr (Dataloder.Batch images masks) ->
  exists data,
    for_each (fun j => Dataset.__getitem__ fs (Dataloder.dataset self) j)
      (py_range (b * Dataloder.batch_size self) ((b + 1) * Dataloder.batch_size self))
    = inr data /\
    images = data.*1 /\ masks = data.*2.
Proof.
  unfold Dataloder.__getitem__.
  destruct (for_each _ _) as [e|data]; [discriminate|]. rewrite bind_inr.
  destruct data as [|s data]; [discriminate|].
  cbn [py_zip_star].
  destruct (np_stack_first same_shape2 (s :: data).*1) as [e|ib] eqn:Hib; [discriminate|].
  destruct (np_stack_first same_shape3 (s :: data).*2) as [e|mb] eqn:Hmb; [discriminate|].
  rewrite !bind_inr. intros [= <- <-].
  apply np_stack_first_returns in Hib, Hmb. by exists (s :: data).
Qed.

(** C7: a returned batch is the list of the samples' images and the list of
    their masks, each in gathering order under a new leading axis.  With ten
    image and mask pairs of 64 x 64 pixels, the class list ['animal'] and a
    batch size of 2, the loader has length 5, and batch 0 holds samples 0
    and 1: its image stack has shape (2, 64, 64, 3) and its mask stack has
    shape (2, 64, 64, 1). *)
Theorem ten_pairs_scenario (rng : Type)
    (np_random_permutation : rng -> list Z -> list Z * rng)
    fs images_dir masks_dir names shuffle g :
  (forall g l, (np_random_permutation g l).1 ≡ₚ l) ->
  dir_entries fs images_dir = Some names ->
  length names = 10%nat ->
  (forall name, name ∈ names ->
     exists pic mpic,
       image_file fs (os_path_join images_dir name) = Some pic /\
       has_shape2 pic 64 64 /\
       image_file fs (os_path_join masks_dir name) = Some mpic /\
       has_shape2 mpic 64 64) ->
  (forall self b images masks,
      Dataloder.__getitem__ fs self b = inr (Dataloder.Batch images masks) ->
      exists data,
        for_each (fun j => Dataset.__getitem__ fs (Dataloder.dataset self) j)
          (py_range (b * Dataloder.batch_size self) ((b + 1) * Dataloder.batch_size self))
        = inr data /\
        images = data.*1 /\ masks = data.*2) /\
  exists ds image0 mask0 image1 mask1,
    Dataset.__init__ fs images_dir masks_dir (Some ["animal"%string]) None None = inr ds /\
    Dataloder.__len__ (Dataloder.__init__ rng np_random_permutation ds 2 shuffle g).1
    = inr 5 /\
    Dataset.__getitem__ fs ds 0 = inr (image0, mask0) /\
    Dataset.__getitem__ fs ds 1 = inr (image1, mask1) /\
    Dataloder.__getitem__ fs (Dataloder.__init__ rng np_random_permutation ds 2 shuffle g).1 0
    = inr (Dataloder.Batch [image0; image1] [mask0; mask1]) /\
    image_batch_has_shape [image0; image1] 2 64 64 3 /\
    mask_batch_has_shape [mask0; mask1] 2 64 64 1.
Proof.
  intros Hperm Hls Hlen Hfiles.
  split; [intros self b images masks; apply get_batch_stacks_samples|].
  destruct names as [|name0 [|name1 rest]]; try discriminate.
  destruct (Hfiles name0) as (pic0 & mpic0 & Hpic0 & Hs0 & Hmpic0 & Hms0); [set_solver|].
  destruct (Hfiles name1) as (pic1 & mpic1 & Hpic1 & Hs1 & Hmpic1 & Hms1); [set_solver|].
  pose proof (init_with_classes fs images_dir masks_dir _ ["animal"%string] None None Hls)
    as Hds.
  pose proof (getitem_of_readable_pair fs images_dir masks_dir _ "animal" [] 0 name0
                pic0 mpic0 _ Hds Hls eq_refl Hpic0 Hmpic0) as Hget0.
  pose proof (getitem_of_readable_pair fs images_dir masks_dir _ "animal" [] 1 name1
                pic1 mpic1 _ Hds Hls eq_refl Hpic1 Hmpic1) as Hget1.
  change (Z.of_nat 0) with 0 in Hget0. change (Z.of_nat 1) with 1 in Hget1.
  set (ds := {| Dataset.ids := name0 :: name1 :: rest |}) in *.
  assert (Dataset.__len__ ds = 10) as HN.
  { unfold Dataset.__len__. cbn [Dataset.ids ds]. by rewrite Hlen. }
  clearbody ds.
  assert (has_shape2 (map2d (fun p => (red p, green p, blue p)) pic0) 64 64) as Hi0
      by by apply has_shape2_map2d.
  assert (has_shape2 (map2d (fun p => (red p, green p, blue p)) pic1) 64 64) as Hi1
      by by apply has_shape2_map2d.
  assert (forall mpic, has_shape2 mpic 64 64 ->
            has_shape3 (map2d (fun p => (fun k => indicator (shows p (Dataset.CLASSES !! k)))
                                          <$> ["animal"%string]) (loaded mpic)) 64 64 1) as Hm.
  { intros mpic Hs. apply has_shape3_map2d; [by apply has_shape2_map2d|done]. }
  pose proof (Hm _ Hms0) as Hm0. pose proof (Hm _ Hms1) as Hm1. clear Hm.
  set (image0 := map2d _ pic0) in *. set (image1 := map2d _ pic1) in *.
  set (mask0 := map2d _ (loaded mpic0)) in *. set (mask1 := map2d _ (loaded mpic1)) in *.
  clearbody image0 image1 mask0 mask1.
  exists ds, image0, mask0, image1, mask1. split; [exact Hds|].
  split.
  { rewrite len_of_constructed by (done || lia). by rewrite HN. }
  split; [exact Hget0|]. split; [exact Hget1|]. split.
  - unfold Dataloder.__getitem__.
    destruct (init_fields rng np_random_permutation ds 2 shuffle g) as [-> ->].
    change (py_range (0 * 2) ((0 + 1) * 2)) with [0; 1].
    cbn [for_each]. rewrite Hget0, bind_inr, Hget1, !bind_inr, !bind_mret.
    cbn [py_zip_star fmap list_fmap fst snd np_stack_first forallb].
    by rewrite (same_shape2_of_shapes _ _ 64 64 Hi0 Hi1),
      (same_shape3_of_shapes _ _ 64 64 1 Hm0 Hm1).
  - split.
    + split; [reflexivity|]. split; [|reflexivity].
      repeat (apply Forall_cons_2; [assumption|]). apply Forall_nil_2.
    + split; [reflexivity|].
      repeat (apply Forall_cons_2; [assumption|]). apply Forall_nil_2.
Qed.

Lemma ten_pairs_scenario_witness :
  exists ds image0 mask0 image1 mask1,
    Dataset.__init__ ten_pairs_fs "images" "masks" (Some ["animal"%string]) None None
    = inr ds /\
    Dataloder.__len__ (Dataloder.__init__ unit reversing ds 2 true tt).1 = inr 5 /\
    Dataset.__getitem__ ten_pairs_fs ds 0 = inr (image0, mask0) /\
    Dataset.__getitem__ ten_pairs_fs ds 1 = inr (image1, mask1) /\
    Dataloder.__getitem__ ten_pairs_fs (Dataloder.__init__ unit reversing ds 2 true tt).1 0
    = inr (Dataloder.Batch [image0; image1] [mask0; mask1]) /\
    image_batch_has_shape [image0; image1] 2 64 64 3 /\
    mask_batch_has_shape [mask0; mask1] 2 64 64 1.
Proof.
  refine (proj2 (ten_pairs_scenario unit reversing ten_pairs_fs "images" "masks"
                   ten_names true tt _ _ _ _)).
  - intros g l. apply reverse_Permutation.
  - reflexivity.
  - reflexivity.
  - intros name _. exists black_64, black_64.
    assert (has_shape2 black_64 64 64) as Hshape.
    { split; [reflexivity|]. apply Forall_replicate. reflexivity. }
    repeat split; try reflexivity; apply Hshape.
Defined.

(** * Further properties of [Dataset] *)

(** X1: a constructed dataset keeps the directory listing as its ids; its
    length is the number of entries, and at every position the image path
    and the mask path are the two directories joined with the same id. *)
Theorem constructed_paths_pair_up fs images_dir masks_dir classes aug pre ds :
  Dataset.__init__ fs images_dir masks_dir classes aug pre = inr ds ->
  exists names,
    dir_entries fs images_dir = Some names /\
    Dataset.ids ds = names /\
    Dataset.__len__ ds = Z.of_nat (length names) /\
    length (Dataset.images_fps ds) = length names /\
    length (Dataset.masks_fps ds) = length names /\
    forall (i : nat) name,
      names !! i = Some name ->
      Dataset.images_fps ds !! i = Some (os_path_join images_dir name) /\
      Dataset.masks_fps ds !! i = Some (os_path_join masks_dir name).
Proof.
  unfold Dataset.__init__, os_listdir.
  destruct (dir_entries fs images_dir) as [names|]; [|discriminate].
  destruct classes as [keys|]; [|discriminate].
  intros [= <-]. exists names. cbn. rewrite !length_fmap.
  do 5 (split; [reflexivity|]). intros i name Hname.
  by rewrite !list_lookup_fmap, Hname.
Qed.

Lemma constructed_paths_pair_up_witness :
  exists names,
    dir_entries paired_fs "images" = Some names /\
    Dataset.ids paired_dataset = names /\
    Dataset.__len__ paired_dataset = Z.of_nat (length names) /\
    length (Dataset.images_fps paired_dataset) = length names /\
    length (Dataset.masks_fps paired_dataset) = length names /\
    forall (i : nat) name,
      names !! i = Some name ->
      Dataset.images_fps paired_dataset !! i = Some (os_path_join "images" name) /\
      Dataset.masks_fps paired_dataset !! i = Some (os_path_join "masks" name).
Proof.
  apply (constructed_paths_pair_up paired_fs "images" "masks"
           (Some ["animal"%string]) None None paired_dataset).
  reflexivity.
Defined.

(** X2: an empty class list is accepted by the constructor, and then get
    raises a value error for every listed id whose image can be read,
    whether or not its mask exists and whatever the transforms are: there is
    no plane to stack. *)
Theorem empty_class_list_fails_at_get fs images_dir masks_dir names aug pre
    (i : nat) name pic :
  dir_entries fs images_dir = Some names ->
  names !! i = Some name ->
  image_file fs (os_path_join images_dir name) = Some pic ->
  exists ds,
    Dataset.__init__ fs images_dir masks_dir (Some []) aug pre = inr ds /\
    Dataset.__getitem__ fs ds (Z.of_nat i) = inl ValueError.
Proof.
  intros Hls Hname Hpic. eexists. split; [by apply init_with_classes|].
  rewrite (getitem_at _ _ _ (os_path_join images_dir name) (os_path_join masks_dir name)).
  2,3: cbn; by rewrite list_lookup_fmap, Hname.
  rewrite (cv2_imread_file _ _ _ Hpic), cvtColor_loaded, bind_inr.
  cbn [Dataset.class_colors fmap list_fmap].
  by rewrite extract_classes_no_class.
Qed.

Lemma empty_class_list_fails_at_get_witness :
  exists ds,
    Dataset.__init__ paired_fs "images" "masks" (Some []) None None = inr ds /\
    Dataset.__getitem__ paired_fs ds (Z.of_nat 0) = inl ValueError.
Proof.
  apply (empty_class_list_fails_at_get paired_fs "images" "masks"
           ["a.png"%string; "b.png"%string] None None 0 "a.png" picture_a);
    reflexivity.
Defined.

(** X3: in a dataset without transforms, the image returned for a readable
    pair shows, at every position, the red, green and blue values of the
    image file's pixel, in that order; it has the rows of the image file
    and the mask has the rows of the mask file.  The two sizes are not
    compared: a pair of different sizes is returned as it is. *)
Theorem image_is_returned_in_rgb_order fs images_dir masks_dir names key keys
    (i : nat) name pic mpic :
  dir_entries fs images_dir = Some names ->
  names !! i = Some name ->
  image_file fs (os_path_join images_dir name) = Some pic ->
  image_file fs (os_path_join masks_dir name) = Some mpic ->
  exists ds (image : raster) (mask : mask_tensor),
    Dataset.__init__ fs images_dir masks_dir (Some (key :: keys)) None None = inr ds /\
    Dataset.__getitem__ fs ds (Z.of_nat i) = inr (image, mask) /\
    length <$> image = length <$> pic /\
    length <$> mask = length <$> mpic /\
    forall r c : nat,
      at2 image r c = (fun p => (red p, green p, blue p)) <$> at2 pic r c.
Proof.
  intros Hls Hname Hpic Hmpic.
  eexists _, _, _. split; [by apply init_with_classes|].
  split; [eapply getitem_of_readable_pair; eauto using init_with_classes|].
  split; [by rewrite map2d_row_lengths|].
  split; [unfold loaded; by rewrite !map2d_row_lengths|].
  intros r c. apply map2d_lookup.
Qed.

Lemma image_is_returned_in_rgb_order_witness :
  exists ds (image : raster) (mask : mask_tensor),
    Dataset.__init__ uneven_fs "images" "masks" (Some ["animal"%string]) None None = inr ds /\
    Dataset.__getitem__ uneven_fs ds (Z.of_nat 0) = inr (image, mask) /\
    length <$> image = length <$> picture_a /\
    length <$> mask = length <$> picture_tall /\
    forall r c : nat,
      at2 image r c = (fun p => (red p, green p, blue p)) <$> at2 picture_a r c.
Proof.
  apply (image_is_returned_in_rgb_order uneven_fs "images" "masks"
           ["a.png"%string; "b.png"%string] "animal" [] 0 "a.png"
           picture_a picture_tall); reflexivity.
Defined.

(** X4: when the image file of a listed id is missing or cannot be decoded,
    get raises the error of [cv2.cvtColor], whatever the class list, the mask
    file and the transforms are. *)
Theorem unreadable_image_raises_cv_error fs images_dir masks_dir names keys aug pre
    (i : nat) name :
  dir_entries fs images_dir = Some names ->
  names !! i = Some name ->
  image_file fs (os_path_join images_dir name) = None ->
  exists ds,
    Dataset.__init__ fs images_dir masks_dir (Some keys) aug pre = inr ds /\
    Dataset.__getitem__ fs ds (Z.of_nat i) = inl CvError.
Proof.
  intros Hls Hname Hpic. eexists. split; [by apply init_with_classes|].
  rewrite (getitem_at _ _ _ (os_path_join images_dir name) (os_path_join masks_dir name)).
  2,3: cbn; by rewrite list_lookup_fmap, Hname.
  by rewrite (cv2_imread_no_file _ _ Hpic).
Qed.

Lemma unreadable_image_raises_cv_error_witness :
  exists ds,
    Dataset.__init__ undecodable_fs "images" "masks" (Some ["animal"%string]) None None
    = inr ds /\
    Dataset.__getitem__ undecodable_fs ds (Z.of_nat 0) = inl CvError.
Proof.
  apply (unreadable_image_raises_cv_error undecodable_fs "images" "masks"
           ["a.png"%string; "b.png"%string] ["animal"%string] None None 0 "a.png");
    reflexivity.
Defined.

(** No two names of the palette have the same colour. *)
Lemma palette_colours_differ (a b : string) (c : pixel) :
  Dataset.CLASSES !! a = Some c -> Dataset.CLASSES !! b = Some c -> a = b.
Proof.
  unfold Dataset.CLASSES. cbn [list_to_map foldr fst snd uncurry].
  rewrite !lookup_insert, !lookup_empty.
  repeat case_decide; subst; try congruence; intros; congruence.
Qed.

Lemma shows_colour (p : pixel) (c : option pixel) :
  indicator (shows p c) = 1 -> c = Some p.
Proof.
  destruct c as [[[c0 c1] c2]|]; [|discriminate].
  destruct p as [[p0 p1] p2]. cbn.
  destruct (Z.eqb_spec p0 c0), (Z.eqb_spec p1 c1), (Z.eqb_spec p2 c2);
    cbn; try discriminate. by subst.
Qed.

(** X5: in the mask returned for a readable pair by a dataset without
    transforms, two channels that are both 1 at a pixel belong to the same
    class name: the palette colours are pairwise different, so a pixel is
    marked for one class at most (unless the class list repeats a name). *)
Theorem channels_are_exclusive fs images_dir masks_dir names key keys
    (i : nat) name pic mpic :
  dir_entries fs images_dir = Some names ->
  names !! i = Some name ->
  image_file fs (os_path_join images_dir name) = Some pic ->
  image_file fs (os_path_join masks_dir name) = Some mpic ->
  exists ds (image : raster) (mask : mask_tensor),
    Dataset.__init__ fs images_dir masks_dir (Some (key :: keys)) None None = inr ds /\
    Dataset.__getitem__ fs ds (Z.of_nat i) = inr (image, mask) /\
    forall (r c k1 k2 : nat) class1 class2,
      (key :: keys) !! k1 = Some class1 ->
      (key :: keys) !! k2 = Some class2 ->
      at3 mask r c k1 = Some 1 ->
      at3 mask r c k2 = Some 1 ->
      class1 = class2.
Proof.
  intros Hls Hname Hpic Hmpic.
  eexists _, _, _. split; [by apply init_with_classes|].
  split; [eapply getitem_of_readable_pair; eauto using init_with_classes|].
  intros r c k1 k2 class1 class2 Hk1 Hk2. unfold at3.
  rewrite map2d_lookup. destruct (at2 (loaded mpic) r c) as [p|]; [|discriminate].
  cbn [fmap option_fmap option_map mbind option_bind].
  rewrite !list_lookup_fmap, Hk1, Hk2. cbn [fmap option_fmap option_map].
  intros [= H1] [= H2]. apply shows_colour in H1, H2.
  by apply (palette_colours_differ class1 class2 p).
Qed.

Lemma channels_are_exclusive_witness :
  exists ds (image : raster) (mask : mask_tensor),
    Dataset.__init__ paired_fs "images" "masks"
      (Some ["animal"%string; "nonmaskingbackground"%string]) None None = inr ds /\
    Dataset.__getitem__ paired_fs ds (Z.of_nat 0) = inr (image, mask) /\
    forall (r c k1 k2 : nat) class1 class2,
      ["animal"%string; "nonmaskingbackground"%string] !! k1 = Some class1 ->
      ["animal"%string; "nonmaskingbackground"%string] !! k2 = Some class2 ->
      at3 mask r c k1 = Some 1 ->
      at3 mask r c k2 = Some 1 ->
      class1 = class2.
Proof.
  apply (channels_are_exclusive paired_fs "images" "masks"
           ["a.png"%string; "b.png"%string] "animal" ["nonmaskingbackground"%string]
           0 "a.png" picture_a picture_a); reflexivity.
Defined.


(** * Further properties of [Dataloder] *)

Lemma for_each_ext {A B : Type} (f g : A -> result B) (l : list A) :
  (forall x, x ∈ l -> f x = g x) -> for_each f l = for_each g l.
Proof.
  induction l as [|x l IH]; intros Hfg; [reflexivity|].
  cbn [for_each]. rewrite Hfg by left. rewrite IH; [reflexivity|].
  intros y Hy. apply Hfg. by right.
Qed.

Lemma for_each_first_failure {A B : Type} (f : A -> result B) (before after : list A)
    (x : A) (e : exn) :
  (forall y, y ∈ before -> exists s, f y = inr s) ->
  f x = inl e ->
  for_each f (before ++ x :: after) = inl e.
Proof.
  intros Hok Hx. induction before as [|y before IH].
  - by apply for_each_head_fails.
  - cbn [app for_each]. destruct (Hok y) as [s ->]; [left|]. rewrite bind_inr.
    rewrite IH; [reflexivity|]. intros z Hz. apply Hok. by right.
Qed.

Lemma np_stack_first_same_shapes {A : Type} (same_shape : A -> A -> bool) (a : A)
    (rest : list A) :
  (forall x, x ∈ rest -> same_shape a x = true) ->
  np_stack_first same_shape (a :: rest) = inr (a :: rest).
Proof.
  intros Hs. cbn [np_stack_first].
  assert (forallb (same_shape a) rest = true) as ->; [|reflexivity].
  apply forallb_forall. intros x Hx. apply Hs. by apply list_elem_of_In.
Qed.

Lemma np_stack_first_mismatch {A : Type} (same_shape : A -> A -> bool) (a x : A)
    (rest : list A) :
  x ∈ rest -> same_shape a x = false ->
  np_stack_first same_shape (a :: rest) = inl ValueError.
Proof.
  intros Hx Hs. cbn [np_stack_first].
  destruct (forallb (same_shape a) rest) eqn:Hall; [|reflexivity].
  rewrite forallb_forall in Hall. rewrite Hall in Hs; [discriminate|].
  by apply list_elem_of_In.
Qed.

Lemma np_stack_first_outcome {A : Type} (same_shape : A -> A -> bool) (a : A)
    (rest : list A) :
  np_stack_first same_shape (a :: rest) = inr (a :: rest) \/
  np_stack_first same_shape (a :: rest) = inl ValueError.
Proof. cbn [np_stack_first]. destruct (forallb _ rest); auto. Qed.

Lemma batch_of_loaded_samples fs (self : Dataloder.t) (b : Z)
    (sample : Z -> raster * mask_tensor) (h w mh mw k : nat) :
  1 <= Dataloder.batch_size self ->
  (forall j, b * Dataloder.batch_size self <= j < (b + 1) * Dataloder.batch_size self ->
     Dataset.__getitem__ fs (Dataloder.dataset self) j = inr (sample j) /\
     has_shape2 (sample j).1 h w /\ has_shape3 (sample j).2 mh mw k) ->
  Dataloder.__getitem__ fs self b
  = inr (Dataloder.Batch
           ((fun j => (sample j).1)
              <$> seqZ (b * Dataloder.batch_size self) (Dataloder.batch_size self))
           ((fun j => (sample j).2)
              <$> seqZ (b * Dataloder.batch_size self) (Dataloder.batch_size self))).
Proof.
  intros Hbs Hload. set (bs := Dataloder.batch_size self) in *.
  unfold Dataloder.__getitem__, py_range. fold bs.
  replace ((b + 1) * bs - b * bs) with bs by lia.
  rewrite (for_each_total sample).
  2:{ intros j Hj. apply elem_of_seqZ in Hj. apply Hload. lia. }
  rewrite bind_inr.
  assert (forall j, j ∈ seqZ (b * bs) bs ->
            has_shape2 (sample j).1 h w /\ has_shape3 (sample j).2 mh mw k) as Hshape.
  { intros j Hj. apply elem_of_seqZ in Hj. apply Hload. lia. }
  rewrite seqZ_cons in * by lia.
  set (rest := seqZ (Z.succ (b * bs)) (Z.pred bs)) in *.
  cbn [fmap list_fmap py_zip_star fst snd].
  destruct (Hshape (b * bs)) as [Hi0 Hm0]; [left|].
  rewrite (np_stack_first_same_shapes same_shape2), bind_inr.
  2:{ intros x Hx. apply list_elem_of_fmap in Hx as (s & -> & Hs).
      apply list_elem_of_fmap in Hs as (j & -> & Hj).
      apply (same_shape2_of_shapes _ _ h w Hi0), Hshape. by right. }
  rewrite (np_stack_first_same_shapes same_shape3), bind_inr.
  2:{ intros x Hx. apply list_elem_of_fmap in Hx as (s & -> & Hs).
      apply list_elem_of_fmap in Hs as (j & -> & Hj).
      apply (same_shape3_of_shapes _ _ mh mw k Hm0), Hshape. by right. }
  cbv [mret result_ret]. do 2 f_equal.
  - f_equal. fold (@fmap list _). by rewrite <- list_fmap_compose.
  - f_equal. fold (@fmap list _). by rewrite <- list_fmap_compose.
Qed.

(** X7: when every sample of batch b loads, the images have one shape and
    the masks have one shape (which need not be that of the images),
    get_batch(b) returns the images of samples b*bs, ..., b*bs + bs - 1 in
    this order and their masks in the same order: a batch of exactly bs
    samples. *)
Theorem batch_holds_its_samples fs (self : Dataloder.t) (b : Z)
    (sample : Z -> raster * mask_tensor) (h w mh mw k : nat) :
  1 <= Dataloder.batch_size self ->
  (forall j, b * Dataloder.batch_size self <= j < (b + 1) * Dataloder.batch_size self ->
     Dataset.__getitem__ fs (Dataloder.dataset self) j = inr (sample j) /\
     has_shape2 (sample j).1 h w /\ has_shape3 (sample j).2 mh mw k) ->
  exists images masks,
    Dataloder.__getitem__ fs self b = inr (Dataloder.Batch images masks) /\
    images = (fun j => (sample j).1)
               <$> seqZ (b * Dataloder.batch_size self) (Dataloder.batch_size self) /\
    masks = (fun j => (sample j).2)
               <$> seqZ (b * Dataloder.batch_size self) (Dataloder.batch_size self) /\
    Z.of_nat (length images) = Dataloder.batch_size self /\
    Z.of_nat (length masks) = Dataloder.batch_size self.
Proof.
  intros Hbs Hload. eexists _, _.
  split; [by apply (batch_of_loaded_samples fs self b sample h w mh mw k)|].
  split; [reflexivity|]. split; [reflexivity|].
  rewrite !length_fmap, length_seqZ. lia.
Qed.

Lemma batch_holds_its_samples_witness :
  exists images masks,
    Dataloder.__getitem__ crossed_fs paired_loader 0 = inr (Dataloder.Batch images masks) /\
    images = (fun j => (crossed_sample j).1) <$> seqZ (0 * 2) 2 /\
    masks = (fun j => (crossed_sample j).2) <$> seqZ (0 * 2) 2 /\
    Z.of_nat (length images) = 2 /\
    Z.of_nat (length masks) = 2.
Proof.
  apply (batch_holds_its_samples crossed_fs paired_loader 0 crossed_sample 1 2 2 1 1).
  - cbn. lia.
  - intros j Hj. assert (j = 0 \/ j = 1) as [-> | ->] by (cbn in Hj; lia).
    + split; [reflexivity|]. split; (split; [reflexivity|]); repeat constructor.
    + split; [reflexivity|]. split; (split; [reflexivity|]); repeat constructor.
Defined.

Lemma concat_batch_ranges {A : Type} (f : Z -> A) (bs : Z) (q : nat) :
  0 <= bs ->
  concat ((fun b => f <$> seqZ (b * bs) bs) <$> seqZ 0 (Z.of_nat q))
  = f <$> seqZ 0 (Z.of_nat q * bs).
Proof.
  intros Hbs. induction q as [|q IH]; [reflexivity|].
  rewrite seqZ_S, fmap_app, concat_app, IH. cbn [fmap list_fmap concat].
  rewrite app_nil_r.
  replace (Z.of_nat (S q) * bs) with (Z.of_nat q * bs + bs) by lia.
  rewrite seqZ_app, fmap_app by lia.
  by replace ((0 + Z.of_nat q) * bs) with (0 + Z.of_nat q * bs) by lia.
Qed.

(** X8: for a constructed loader with batch size bs >= 1 and length n whose
    samples 0, ..., n*bs - 1 load with one image shape and one mask shape,
    get_batch returns for every b of 0, ..., n-1, and the images of these
    batches, joined in batch order, are the images of samples 0, ...,
    n*bs - 1 in order, each once; so are the masks.  As n*bs = N - N mod bs,
    the last N mod bs samples are in none of these batches. *)
Theorem batches_tile_the_dataset (rng : Type)
    (np_random_permutation : rng -> list Z -> list Z * rng) fs ds bs shuffle g n
    (sample : Z -> raster * mask_tensor) (h w mh mw k : nat) :
  (forall g l, (np_random_permutation g l).1 ≡ₚ l) ->
  1 <= bs ->
  Dataloder.__len__ (Dataloder.__init__ rng np_random_permutation ds bs shuffle g).1 = inr n ->
  (forall j, 0 <= j < n * bs ->
     Dataset.__getitem__ fs ds j = inr (sample j) /\
     has_shape2 (sample j).1 h w /\ has_shape3 (sample j).2 mh mw k) ->
  exists batches,
    for_each (fun b => Dataloder.__getitem__ fs
                         (Dataloder.__init__ rng np_random_permutation ds bs shuffle g).1 b)
      (seqZ 0 n)
    = inr batches /\
    concat (batch_images <$> batches) = (fun j => (sample j).1) <$> seqZ 0 (n * bs) /\
    concat (batch_masks <$> batches) = (fun j => (sample j).2) <$> seqZ 0 (n * bs) /\
    n * bs = Dataset.__len__ ds - Dataset.__len__ ds mod bs.
Proof.
  intros Hperm Hbs Hn Hload. rewrite len_of_constructed in Hn by (done || lia).
  destruct (init_fields rng np_random_permutation ds bs shuffle g) as [Hds Hsize].
  set (loader := (Dataloder.__init__ rng np_random_permutation ds bs shuffle g).1) in *.
  clearbody loader. injection Hn as Hn.
  assert (0 <= Dataset.__len__ ds) as HN by (unfold Dataset.__len__; lia).
  assert (0 <= n) as Hn0 by (subst n; apply Z.div_pos; lia).
  exists ((fun b => Dataloder.Batch ((fun j => (sample j).1) <$> seqZ (b * bs) bs)
                                    ((fun j => (sample j).2) <$> seqZ (b * bs) bs))
            <$> seqZ 0 n).
  split; [|split; [|split]].
  - apply for_each_total. intros b Hb. apply elem_of_seqZ in Hb.
    rewrite (batch_of_loaded_samples fs loader b sample h w mh mw k).
    + by rewrite Hsize.
    + rewrite Hsize. lia.
    + rewrite Hsize, Hds. intros j Hj. apply Hload. nia.
  - rewrite <- list_fmap_compose. rewrite <- (Z2Nat.id n) by done.
    apply (concat_batch_ranges (fun j => (sample j).1)). lia.
  - rewrite <- list_fmap_compose. rewrite <- (Z2Nat.id n) by done.
    apply (concat_batch_ranges (fun j => (sample j).2)). lia.
  - subst n. pose proof (Z.div_mod (Dataset.__len__ ds) bs). lia.
Qed.

Lemma batches_tile_the_dataset_witness :
  exists batches,
    for_each (fun b => Dataloder.__getitem__ crossed_fs
                         (Dataloder.__init__ unit reversing paired_dataset 1 true tt).1 b)
      (seqZ 0 2)
    = inr batches /\
    concat (batch_images <$> batches) = (fun j => (crossed_sample j).1) <$> seqZ 0 (2 * 1) /\
    concat (batch_masks <$> batches) = (fun j => (crossed_sample j).2) <$> seqZ 0 (2 * 1) /\
    2 * 1 = Dataset.__len__ paired_dataset - Dataset.__len__ paired_dataset mod 1.
Proof.
  apply (batches_tile_the_dataset unit reversing crossed_fs paired_dataset 1 true tt 2
           crossed_sample 1 2 2 1 1).
  - intros g l. apply reverse_Permutation.
  - lia.
  - reflexivity.
  - intros j Hj. assert (j = 0 \/ j = 1) as [-> | ->] by lia.
    + split; [reflexivity|]. split; (split; [reflexivity|]); repeat constructor.
    + split; [reflexivity|]. split; (split; [reflexivity|]); repeat constructor.
Defined.

(** X9: with a batch size of zero or less, get_batch returns the empty list
    for every batch index, without reading the dataset; with a batch size of
    zero the loader has no length: the division raises. *)
Theorem nonpositive_batch_size fs (self : Dataloder.t) (b : Z) :
  Dataloder.batch_size self <= 0 ->
  Dataloder.__getitem__ fs self b = inr Dataloder.EmptyBatch /\
  (Dataloder.batch_size self = 0 -> Dataloder.__len__ self = inl ZeroDivisionError).
Proof.
  intros Hbs. split.
  - unfold Dataloder.__getitem__, py_range. by rewrite seqZ_nil by lia.
  - intros Hz. unfold Dataloder.__len__, py_floordiv. by rewrite Hz.
Qed.

Lemma nonpositive_batch_size_witness :
  Dataloder.__getitem__ undecodable_fs
    (Dataloder.__init__ unit reversing paired_dataset 0 true tt).1 5
  = inr Dataloder.EmptyBatch /\
  Dataloder.__len__ (Dataloder.__init__ unit reversing paired_dataset 0 true tt).1
  = inl ZeroDivisionError.
Proof.
  destruct (nonpositive_batch_size undecodable_fs
              (Dataloder.__init__ unit reversing paired_dataset 0 true tt).1 5)
    as [Hget Hlen]; [cbn; lia|].
  split; [exact Hget|]. by apply Hlen.
Defined.

(** X10: when the samples of a batch load but one of them differs from the
    first in the row lengths of its image or of its mask, get_batch raises a
    value error: no batch is formed from samples of different shapes. *)
Theorem shape_mismatch_raises_value_error fs (self : Dataloder.t) (b : Z)
    (first other : raster * mask_tensor) (rest : list (raster * mask_tensor)) :
  for_each (fun j => Dataset.__getitem__ fs (Dataloder.dataset self) j)
    (py_range (b * Dataloder.batch_size self) ((b + 1) * Dataloder.batch_size self))
  = inr (first :: rest) ->
  other ∈ rest ->
  length <$> first.1 <> length <$> other.1 \/
  fmap (M := list) length <$> first.2 <> fmap (M := list) length <$> other.2 ->
  Dataloder.__getitem__ fs self b = inl ValueError.
Proof.
  intros Hdata Hother Hdiff. unfold Dataloder.__getitem__.
  rewrite Hdata, bind_inr. cbn [py_zip_star]. rewrite !fmap_cons.
  destruct Hdiff as [Himage|Hmask].
  - rewrite (np_stack_first_mismatch same_shape2 first.1 other.1); [reflexivity| |].
    + apply list_elem_of_fmap. eauto.
    + by apply bool_decide_eq_false.
  - destruct (np_stack_first_outcome same_shape2 first.1 rest.*1)
      as [-> | ->]; [|reflexivity].
    rewrite bind_inr.
    rewrite (np_stack_first_mismatch same_shape3 first.2 other.2); [reflexivity| |].
    + apply list_elem_of_fmap. eauto.
    + by apply bool_decide_eq_false.
Qed.

Lemma shape_mismatch_raises_value_error_witness :
  Dataloder.__getitem__ uneven_fs paired_loader 0 = inl ValueError.
Proof.
  apply (shape_mismatch_raises_value_error uneven_fs paired_loader 0
           ([[(255, 0, 0); (0, 0, 255)]], [[[0]]; [[1]]])
           ([[(255, 0, 0)]; [(0, 0, 255)]], [[[0]]; [[1]]])
           [([[(255, 0, 0)]; [(0, 0, 255)]], [[[0]]; [[1]]])]).
  - reflexivity.
  - left.
  - left. cbn. discriminate.
Defined.

(** X11: after construction and any number of epoch ends, the index
    permutation is a rearrangement of 0, ..., N-1, and the dataset, the batch
    size and the shuffle flag are those given to the constructor. *)
Theorem indexes_stay_a_permutation (rng : Type)
    (np_random_permutation : rng -> list Z -> list Z * rng) ds bs shuffle g (n : nat) :
  (forall g l, (np_random_permutation g l).1 ≡ₚ l) ->
  let started := Dataloder.__init__ rng np_random_permutation ds bs shuffle g in
  let loader := (after_epochs rng np_random_permutation n started.1 started.2).1 in
  Dataloder.indexes loader ≡ₚ np_arange (Dataset.__len__ ds) /\
  Dataloder.dataset loader = ds /\
  Dataloder.batch_size loader = bs /\
  Dataloder.shuffle loader = shuffle.
Proof.
  intros Hperm.
  assert (forall self g',
             Dataloder.indexes (Dataloder.on_epoch_end rng np_random_permutation self g').1
               ≡ₚ Dataloder.indexes self /\
             Dataloder.dataset (Dataloder.on_epoch_end rng np_random_permutation self g').1
             = Dataloder.dataset self /\
             Dataloder.batch_size (Dataloder.on_epoch_end rng np_random_permutation self g').1
             = Dataloder.batch_size self /\
             Dataloder.shuffle (Dataloder.on_epoch_end rng np_random_permutation self g').1
             = Dataloder.shuffle self) as Hstep.
  { intros self g'. unfold Dataloder.on_epoch_end.
    destruct (Dataloder.shuffle self) eqn:Hsh; [|done].
    pose proof (Hperm g' (Dataloder.indexes self)) as Hp.
    by destruct (np_random_permutation g' (Dataloder.indexes self)). }
  assert (forall m self g',
             Dataloder.indexes (after_epochs rng np_random_permutation m self g').1
               ≡ₚ Dataloder.indexes self /\
             Dataloder.dataset (after_epochs rng np_random_permutation m self g').1
             = Dataloder.dataset self /\
             Dataloder.batch_size (after_epochs rng np_random_permutation m self g').1
             = Dataloder.batch_size self /\
             Dataloder.shuffle (after_epochs rng np_random_permutation m self g').1
             = Dataloder.shuffle self) as Hmany.
  { induction m as [|m IH]; intros self g'; [done|].
    cbn [after_epochs]. specialize (Hstep self g').
    destruct (Dataloder.on_epoch_end rng np_random_permutation self g') as [self' g''].
    cbn [fst] in Hstep. destruct (IH self' g'') as (-> & -> & -> & ->).
    by destruct Hstep as (-> & -> & -> & ->). }
  intros started loader. subst loader.
  destruct (Hmany n started.1 started.2) as (-> & -> & -> & ->).
  subst started. unfold Dataloder.__init__.
  match goal with
  | |- context [Dataloder.on_epoch_end _ _ ?s _] => destruct (Hstep s g) as (-> & -> & -> & ->)
  end.
  done.
Qed.

Lemma indexes_stay_a_permutation_witness :
  Dataloder.indexes
    (after_epochs unit reversing 3
       (Dataloder.__init__ unit reversing seventeen 8 true tt).1 tt).1
    ≡ₚ np_arange 17.
Proof.
  refine (proj1 (indexes_stay_a_permutation unit reversing seventeen 8 true tt 3 _)).
  intros g l. apply reverse_Permutation.
Defined.

Lemma getitem_negative_wraps fs images_dir masks_dir classes aug pre ds (j : Z) :
  Dataset.__init__ fs images_dir masks_dir classes aug pre = inr ds ->
  - Dataset.__len__ ds <= j < 0 ->
  Dataset.__getitem__ fs ds j = Dataset.__getitem__ fs ds (Dataset.__len__ ds + j).
Proof.
  intros Hds Hj. destruct (init_lengths _ _ _ _ _ _ _ Hds) as [Himg Hmsk].
  unfold Dataset.__getitem__, Dataset.__len__ in *.
  rewrite (py_getitem_negative (Dataset.images_fps ds)) by (rewrite Himg; lia).
  rewrite (py_getitem_negative (Dataset.masks_fps ds)) by (rewrite Hmsk; lia).
  by rewrite Himg, Hmsk.
Qed.

(** X12: when the batch size bs >= 1 divides the number of samples, N = n*bs,
    a negative batch index b with -n <= b <= -1 is not rejected: get_batch(b)
    is get_batch(n + b), the batch counted from the end. *)
Theorem negative_batch_index_wraps fs images_dir masks_dir classes aug pre
    (self : Dataloder.t) (n b : Z) :
  Dataset.__init__ fs images_dir masks_dir classes aug pre = inr (Dataloder.dataset self) ->
  1 <= Dataloder.batch_size self ->
  Dataset.__len__ (Dataloder.dataset self) = n * Dataloder.batch_size self ->
  - n <= b <= -1 ->
  Dataloder.__getitem__ fs self b = Dataloder.__getitem__ fs self (n + b).
Proof.
  intros Hds Hbs HN Hb. unfold Dataloder.__getitem__, py_range.
  set (bs := Dataloder.batch_size self) in *.
  set (ds := Dataloder.dataset self) in *.
  replace ((b + 1) * bs - b * bs) with bs by lia.
  replace ((n + b + 1) * bs - (n + b) * bs) with bs by lia.
  replace ((n + b) * bs) with (Dataset.__len__ ds + b * bs) by lia.
  rewrite <- fmap_add_seqZ, for_each_fmap.
  rewrite (for_each_ext (fun j => Dataset.__getitem__ fs ds j)
             (fun j => Dataset.__getitem__ fs ds (Dataset.__len__ ds + j))); [reflexivity|].
  intros j Hj. apply elem_of_seqZ in Hj.
  apply (getitem_negative_wraps fs images_dir masks_dir classes aug pre ds j Hds). nia.
Qed.

Lemma negative_batch_index_wraps_witness :
  Dataloder.__getitem__ paired_fs paired_loader (-1)
  = Dataloder.__getitem__ paired_fs paired_loader (1 + -1).
Proof.
  apply (negative_batch_index_wraps paired_fs "images" "masks"
           (Some ["animal"%string]) None None paired_loader 1 (-1)).
  - reflexivity.
  - cbn. lia.
  - reflexivity.
  - lia.
Defined.

(** X13: get_batch loads the samples of its range in increasing order and
    stops at the first that fails: when the samples before index j load and
    sample j raises an error, get_batch raises that error. *)
Theorem first_failing_sample_fails_the_batch fs (self : Dataloder.t) (b j : Z) (e : exn) :
  b * Dataloder.batch_size self <= j < (b + 1) * Dataloder.batch_size self ->
  (forall j', b * Dataloder.batch_size self <= j' < j ->
     exists s, Dataset.__getitem__ fs (Dataloder.dataset self) j' = inr s) ->
  Dataset.__getitem__ fs (Dataloder.dataset self) j = inl e ->
  Dataloder.__getitem__ fs self b = inl e.
Proof.
  intros Hj Hbefore Hfail. unfold Dataloder.__getitem__, py_range.
  set (bs := Dataloder.batch_size self) in *.
  replace ((b + 1) * bs - b * bs) with ((j - b * bs) + (bs - (j - b * bs))) by lia.
  rewrite seqZ_app by lia. rewrite (seqZ_cons (b * bs + (j - b * bs))) by lia.
  replace (b * bs + (j - b * bs)) with j by lia.
  rewrite (for_each_first_failure _ _ _ j e); [reflexivity| |exact Hfail].
  intros j' Hj'. apply elem_of_seqZ in Hj'. apply Hbefore. lia.
Qed.

Lemma first_failing_sample_fails_the_batch_witness :
  Dataloder.__getitem__ orphan_fs paired_loader 0 = inl AxisError.
Proof.
  apply (first_failing_sample_fails_the_batch orphan_fs paired_loader 0 1 AxisError).
  - cbn. lia.
  - intros j' Hj'. assert (j' = 0) as -> by (cbn in Hj'; lia). eexists. reflexivity.
  - reflexivity.
Defined.

(** * Indices outside 0 <= i < length() *)

Lemma extract_classes_of_names (mpic : picture) (key : string) (keys : list string) :
  Dataset.extract_classes (Some (loaded mpic))
    ((fun k => Dataset.CLASSES !! k) <$> key :: keys)
  = inr (class_planes (key :: keys) mpic).
Proof.
  change ((fun k => Dataset.CLASSES !! k) <$> key :: keys)
    with (Dataset.CLASSES !! key :: ((fun k => Dataset.CLASSES !! k) <$> keys)).
  rewrite extract_classes_array. unfold class_planes. f_equal.
  apply map2d_ext. intros p.
  change ((fun k => indicator (shows p (Dataset.CLASSES !! k))) <$> key :: keys)
    with (indicator (shows p (Dataset.CLASSES !! key))
          :: ((fun k => indicator (shows p (Dataset.CLASSES !! k))) <$> keys)).
  cbn [fmap list_fmap]. f_equal. fold (@fmap list _).
  by rewrite <- list_fmap_compose.
Qed.

(** A readable pair, in a dataset with any transforms: the decoded pair is
    handed to the augmentation and its result to the preprocessing. *)
Lemma getitem_of_readable_pair_transformed fs images_dir masks_dir names key keys
    aug pre (i : nat) name pic mpic ds :
  Dataset.__init__ fs images_dir masks_dir (Some (key :: keys)) aug pre = inr ds ->
  dir_entries fs images_dir = Some names ->
  names !! i = Some name ->
  image_file fs (os_path_join images_dir name) = Some pic ->
  image_file fs (os_path_join masks_dir name) = Some mpic ->
  Dataset.__getitem__ fs ds (Z.of_nat i)
  = (augmented ← Dataset.apply_if_set aug (rgb_array pic, class_planes (key :: keys) mpic);
     Dataset.apply_if_set pre augmented).
Proof.
  intros Hds Hls Hname Hpic Hmpic.
  rewrite (init_with_classes _ _ _ _ _ _ _ Hls) in Hds. injection Hds as <-.
  rewrite (getitem_at _ _ _ (os_path_join images_dir name) (os_path_join masks_dir name)).
  2,3: cbn; by rewrite list_lookup_fmap, Hname.
  rewrite (cv2_imread_file _ _ _ Hpic), (cv2_imread_file _ _ _ Hmpic).
  rewrite cvtColor_loaded, bind_inr.
  cbn [Dataset.class_colors Dataset.augmentation Dataset.preprocessing].
  change (Dataset.CLASSES !! key
          :: list_fmap string (option pixel) (fun k => Dataset.CLASSES !! k) keys)
    with ((fun k => Dataset.CLASSES !! k) <$> key :: keys).
  by rewrite extract_classes_of_names, bind_inr.
Qed.

Lemma init_ids fs images_dir masks_dir classes aug pre ds :
  Dataset.__init__ fs images_dir masks_dir classes aug pre = inr ds ->
  dir_entries fs images_dir = Some (Dataset.ids ds) /\
  Dataset.images_fps ds = os_path_join images_dir <$> Dataset.ids ds /\
  Dataset.masks_fps ds = os_path_join masks_dir <$> Dataset.ids ds /\
  Dataset.augmentation ds = aug /\ Dataset.preprocessing ds = pre.
Proof.
  unfold Dataset.__init__, os_listdir.
  destruct (dir_entries fs images_dir) as [names|]; [|discriminate].
  destruct classes as [keys|]; [|discriminate]. by intros [= <-].
Qed.

(** The sample that a negative index within -N .. -1 returns. *)
Lemma getitem_negative_readable fs images_dir masks_dir key keys aug pre ds (i : Z)
    name pic mpic :
  Dataset.__init__ fs images_dir masks_dir (Some (key :: keys)) aug pre = inr ds ->
  - Dataset.__len__ ds <= i <= -1 ->
  Dataset.ids ds !! Z.to_nat (Dataset.__len__ ds + i) = Some name ->
  image_file fs (os_path_join images_dir name) = Some pic ->
  image_file fs (os_path_join masks_dir name) = Some mpic ->
  Dataset.__getitem__ fs ds i
  = (augmented ← Dataset.apply_if_set aug (rgb_array pic, class_planes (key :: keys) mpic);
     Dataset.apply_if_set pre augmented).
Proof.
  intros Hds Hi Hname Hpic Hmpic.
  rewrite (getitem_negative_wraps _ _ _ _ _ _ _ _ Hds) by lia.
  destruct (init_ids _ _ _ _ _ _ _ Hds) as (Hls & _).
  rewrite <- (Z2Nat.id (Dataset.__len__ ds + i)) by lia.
  by apply (getitem_of_readable_pair_transformed fs images_dir masks_dir
              (Dataset.ids ds) key keys aug pre _ name).
Qed.

(** C9: in a constructed dataset of N >= 1 samples, an index i with
    -N <= i <= -1 is served like the index N + i.  Both list subscripts
    succeed and give the paths of the id at position N + i, and get(i) is
    get(N + i).  When the image and the mask file of that id can be read and
    the class list is not empty, get(i) hands the decoded pair of these two
    files to the transforms; without transforms it returns that pair. *)
Theorem negative_index_wraps fs images_dir masks_dir classes aug pre ds (i : Z) :
  Dataset.__init__ fs images_dir masks_dir classes aug pre = inr ds ->
  1 <= Dataset.__len__ ds ->
  - Dataset.__len__ ds <= i <= -1 ->
  py_getitem (Dataset.images_fps ds) i
    = py_getitem (Dataset.images_fps ds) (Dataset.__len__ ds + i) /\
  py_getitem (Dataset.masks_fps ds) i
    = py_getitem (Dataset.masks_fps ds) (Dataset.__len__ ds + i) /\
  (exists name,
      Dataset.ids ds !! Z.to_nat (Dataset.__len__ ds + i) = Some name /\
      py_getitem (Dataset.images_fps ds) i = inr (os_path_join images_dir name) /\
      py_getitem (Dataset.masks_fps ds) i = inr (os_path_join masks_dir name)) /\
  Dataset.__getitem__ fs ds i = Dataset.__getitem__ fs ds (Dataset.__len__ ds + i) /\
  forall key keys name pic mpic,
    classes = Some (key :: keys) ->
    Dataset.ids ds !! Z.to_nat (Dataset.__len__ ds + i) = Some name ->
    image_file fs (os_path_join images_dir name) = Some pic ->
    image_file fs (os_path_join masks_dir name) = Some mpic ->
    Dataset.__getitem__ fs ds i
    = (augmented ← Dataset.apply_if_set aug
                     (rgb_array pic, class_planes (key :: keys) mpic);
       Dataset.apply_if_set pre augmented) /\
    (aug = None -> pre = None ->
     Dataset.__getitem__ fs ds i = inr (rgb_array pic, class_planes (key :: keys) mpic)).
Proof.
  intros Hds Hlen Hi.
  destruct (init_lengths _ _ _ _ _ _ _ Hds) as [Himg Hmsk].
  destruct (init_ids _ _ _ _ _ _ _ Hds) as (_ & Hipaths & Hmpaths & _).
  assert (py_getitem (Dataset.images_fps ds) i
          = py_getitem (Dataset.images_fps ds) (Dataset.__len__ ds + i)) as Ei.
  { unfold Dataset.__len__. rewrite <- Himg. apply py_getitem_negative.
    unfold Dataset.__len__ in Hi. lia. }
  assert (py_getitem (Dataset.masks_fps ds) i
          = py_getitem (Dataset.masks_fps ds) (Dataset.__len__ ds + i)) as Em.
  { unfold Dataset.__len__. rewrite <- Hmsk. apply py_getitem_negative.
    unfold Dataset.__len__ in Hi. lia. }
  split; [exact Ei|]. split; [exact Em|]. split; [|split].
  - destruct (lookup_lt_is_Some_2 (Dataset.ids ds) (Z.to_nat (Dataset.__len__ ds + i)))
      as [name Hname]; [unfold Dataset.__len__ in *; lia|].
    exists name. split; [exact Hname|].
    rewrite Ei, Em, <- (Z2Nat.id (Dataset.__len__ ds + i)) by lia.
    split; apply py_getitem_nonneg.
    + by rewrite Hipaths, list_lookup_fmap, Hname.
    + by rewrite Hmpaths, list_lookup_fmap, Hname.
  - apply (getitem_negative_wraps _ _ _ _ _ _ _ _ Hds). lia.
  - intros key keys name pic mpic -> Hname Hpic Hmpic.
    pose proof (getitem_negative_readable _ _ _ _ _ _ _ _ _ _ _ _ Hds Hi Hname Hpic Hmpic)
      as Hget.
    split; [exact Hget|]. by intros -> ->.
Qed.

Lemma negative_index_wraps_witness :
  Dataset.__getitem__ paired_fs paired_dataset (-1)
  = Dataset.__getitem__ paired_fs paired_dataset (Dataset.__len__ paired_dataset + -1) /\
  Dataset.__getitem__ paired_fs paired_dataset (-1)
  = inr (rgb_array picture_b, class_planes ["animal"%string] picture_b).
Proof.
  assert (1 <= Dataset.__len__ paired_dataset) as Hlen by (vm_compute; discriminate).
  assert (- Dataset.__len__ paired_dataset <= -1 <= -1) as Hi
      by (split; vm_compute; discriminate).
  destruct (negative_index_wraps paired_fs "images" "masks"
              (Some ["animal"%string]) None None paired_dataset (-1) eq_refl Hlen Hi)
    as (_ & _ & _ & Heq & Hret).
  split; [exact Heq|].
  by apply (Hret "animal"%string [] "b.png"%string picture_b picture_b).
Defined.



(** * The validation padding and the number of classes *)

(** X14: the padding that [get_validation_augmentation] configures has, in
    each direction, the least multiple of 32 that is not below the argument:
    a multiple of 32, at least the argument and less than 32 above it; an
    argument that is a multiple of 32 is kept. *)
Theorem validation_padding_is_next_multiple_of_32 (w h : Z) :
  exists pad,
    get_validation_augmentation w h = [pad] /\
    min_width pad mod 32 = 0 /\ w <= min_width pad < w + 32 /\
    min_height pad mod 32 = 0 /\ h <= min_height pad < h + 32 /\
    (w mod 32 = 0 -> min_width pad = w) /\
    (h mod 32 = 0 -> min_height pad = h).
Proof.
  assert (forall x,
            let y := if negb (x mod 32 =? 0) then x + (32 - x mod 32) else x in
            y mod 32 = 0 /\ x <= y < x + 32 /\ (x mod 32 = 0 -> y = x)) as Hup.
  { intros x. cbn zeta. pose proof (Z.mod_pos_bound x 32 ltac:(lia)) as Hb.
    destruct (Z.eqb_spec (x mod 32) 0) as [Hz|Hnz]; cbn [negb].
    - repeat split; (done || lia).
    - split; [|lia].
      rewrite (Z.div_mod x 32) at 1 by lia.
      replace (32 * (x / 32) + x mod 32 + (32 - x mod 32)) with ((x / 32 + 1) * 32) by lia.
      apply Z.mod_mul. lia. }
  eexists. split; [reflexivity|]. cbn [min_width min_height].
  destruct (Hup w) as (? & ? & ?), (Hup h) as (? & ? & ?). done.
Qed.

(** X15: the number of classes is the length of the class list in both
    branches of line 281, the activation is the sigmoid exactly for a
    one-class list, and for a class list that is not empty every pixel of a
    decoded mask has that number of channels. *)
Theorem n_classes_counts_the_mask_channels (mask : raster) (key : string)
    (keys : list string) :
  n_classes (key :: keys) = Z.of_nat (length (key :: keys)) /\
  (activation (key :: keys) = "sigmoid"%string <-> keys = []) /\
  exists decoded,
    decode mask (key :: keys) = inr decoded /\
    length <$> decoded = length <$> mask /\
    forall (r c : nat) chans,
      at2 decoded r c = Some chans ->
      Z.of_nat (length chans) = n_classes (key :: keys).
Proof.
  assert (n_classes (key :: keys) = Z.of_nat (length (key :: keys))) as Hn.
  { unfold n_classes. by destruct (Z.eqb_spec (Z.of_nat (length (key :: keys))) 1) as [->|]. }
  split; [exact Hn|]. split.
  - unfold activation. rewrite Hn.
    destruct (Z.eqb_spec (Z.of_nat (length (key :: keys))) 1) as [H1|H1].
    + split; [intros _|done]. destruct keys; [done|cbn in H1; lia].
    + split; [discriminate|]. intros ->. by cbn in H1.
  - unfold decode. rewrite fmap_cons, extract_classes_array.
    eexists. split; [reflexivity|]. split; [apply map2d_row_lengths|].
    intros r c chans Hch. apply map2d_lookup_Some in Hch as (p & _ & ->).
    rewrite Hn, length_fmap. cbn [length]. by rewrite length_fmap.
Qed.

(** * The resizing pass *)

Section ResizerProperties.

Variable resized_to : Z -> Z -> picture -> picture.

Lemma resize_file_image disk subdir file img :
  disk !! os_path_join subdir file = Some (ImageFile img) ->
  resize_file resized_to disk subdir file
  = (<[(os_path_splitext (os_path_join subdir file)).1 +:+ ".png"
       := ImageFile (resized_to width height img)]>
       (delete (os_path_join subdir file) disk), None).
Proof. intros Himg. unfold resize_file. by rewrite Himg. Qed.

Lemma resize_file_not_image disk subdir file :
  (forall img, disk !! os_path_join subdir file <> Some (ImageFile img)) ->
  resize_file resized_to disk subdir file = (disk, Some CvError).
Proof.
  intros Hno. unfold resize_file.
  destruct (disk !! os_path_join subdir file) as [[img|]|] eqn:Hf; try reflexivity.
  by destruct (Hno img).
Qed.

Lemma resize_files_app disk subdir before after disk1 :
  resize_files resized_to disk subdir before = (disk1, None) ->
  resize_files resized_to disk subdir (before ++ after)
  = resize_files resized_to disk1 subdir after.
Proof.
  revert disk. induction before as [|f before IH]; intros disk Hb.
  - by injection Hb as ->.
  - cbn [app resize_files] in *.
    destruct (resize_file resized_to disk subdir f) as [disk' [e|]]; [discriminate|].
    by apply IH.
Qed.

End ResizerProperties.

(** X16: the pass over the files of a directory stops at the first file that
    is not a decodable image, with the error of [cv2.resize]: the disk is left
    as the files before it made it, that file included and unremoved, and no
    later file is touched. *)
Theorem resize_stops_at_first_non_image (resized_to : Z -> Z -> picture -> picture)
    disk subdir before bad after disk1 :
  resize_files resized_to disk subdir before = (disk1, None) ->
  (forall img, disk1 !! os_path_join subdir bad <> Some (ImageFile img)) ->
  resize_files resized_to disk subdir (before ++ bad :: after) = (disk1, Some CvError).
Proof.
  intros Hbefore Hbad. rewrite (resize_files_app _ _ _ _ _ _ Hbefore).
  cbn [resize_files]. by rewrite resize_file_not_image.
Qed.

Lemma resize_stops_at_first_non_image_witness :
  resize_files black_resize sample_disk "dir" ["c.png"; "notes.txt"; "a.jpg"]%string
  = (<["dir/c.png"%string := ImageFile (black_resize width height picture_a)]> sample_disk,
     Some CvError).
Proof.
  refine (eq_trans
            (resize_stops_at_first_non_image black_resize sample_disk "dir"
               ["c.png"%string] "notes.txt" ["a.jpg"%string]
               (<["dir/c.png"%string := ImageFile (black_resize width height picture_a)]>
                  (delete "dir/c.png"%string sample_disk)) _ _) _).
  - reflexivity.
  - intros img. by vm_compute.
  - by rewrite insert_delete_eq.
Defined.

(** X17: on a decodable image the step stores the resized picture under the
    path with the extension replaced by ".png" and removes the file from its
    old path when that is another path; every other file is left as it
    was. *)
Theorem resize_file_rewrites_one_file (resized_to : Z -> Z -> picture -> picture)
    disk subdir file img :
  disk !! os_path_join subdir file = Some (ImageFile img) ->
  let path := os_path_join subdir file in
  let write_path := (os_path_splitext path).1 +:+ ".png" in
  exists disk',
    resize_file resized_to disk subdir file = (disk', None) /\
    disk' !! write_path = Some (ImageFile (resized_to width height img)) /\
    (path <> write_path -> disk' !! path = None) /\
    forall other, other <> path -> other <> write_path -> disk' !! other = disk !! other.
Proof.
  intros Himg path write_path. eexists. split; [by apply resize_file_image|].
  fold path. fold write_path. split; [apply lookup_insert_eq|]. split.
  - intros Hne. rewrite lookup_insert_ne by done. apply lookup_delete_eq.
  - intros other Hp Hw. rewrite lookup_insert_ne by done. by rewrite lookup_delete_ne.
Qed.

Lemma resize_file_rewrites_one_file_witness :
  exists disk',
    resize_file black_resize sample_disk "dir" "a.jpg" = (disk', None) /\
    disk' !! "dir/a.png"%string = Some (ImageFile (black_resize width height picture_a)) /\
    ("dir/a.jpg"%string <> "dir/a.png"%string -> disk' !! "dir/a.jpg"%string = None) /\
    forall other, other <> "dir/a.jpg"%string -> other <> "dir/a.png"%string ->
                  disk' !! other = sample_disk !! other.
Proof.
  apply (resize_file_rewrites_one_file black_resize sample_disk "dir" "a.jpg" picture_a).
  reflexivity.
Defined.

(** X18: two images of one directory whose names differ only in the
    extension, neither being ".png", end up in one file: after the pass over
    both, the common ".png" path shows the second picture resized, both old
    paths are gone, and the first picture is on the disk no more. *)
Theorem same_stem_files_collide (resized_to : Z -> Z -> picture -> picture)
    disk subdir file1 file2 img1 img2 :
  let path1 := os_path_join subdir file1 in
  let path2 := os_path_join subdir file2 in
  let write_path := (os_path_splitext path1).1 +:+ ".png" in
  (os_path_splitext path2).1 = (os_path_splitext path1).1 ->
  path1 <> path2 -> path1 <> write_path -> path2 <> write_path ->
  disk !! path1 = Some (ImageFile img1) ->
  disk !! path2 = Some (ImageFile img2) ->
  exists disk',
    resize_files resized_to disk subdir [file1; file2] = (disk', None) /\
    disk' !! write_path = Some (ImageFile (resized_to width height img2)) /\
    disk' !! path1 = None /\
    disk' !! path2 = None /\
    forall other, other <> path1 -> other <> path2 -> other <> write_path ->
                  disk' !! other = disk !! other.
Proof.
  intros path1 path2 write_path Hstem H12 H1w H2w Himg1 Himg2.
  eexists. split.
  - cbn [resize_files]. rewrite (resize_file_image _ _ _ _ img1) by done.
    fold path1. fold write_path.
    rewrite (resize_file_image _ _ _ _ img2).
    + fold path2. rewrite Hstem. fold write_path. reflexivity.
    + fold path2. rewrite lookup_insert_ne by done. by rewrite lookup_delete_ne.
  - split; [apply lookup_insert_eq|]. split; [|split].
    + rewrite lookup_insert_ne, lookup_delete_ne, lookup_insert_ne by done.
      apply lookup_delete_eq.
    + rewrite lookup_insert_ne by done. apply lookup_delete_eq.
    + intros other Ho1 Ho2 How.
      rewrite lookup_insert_ne, lookup_delete_ne, lookup_insert_ne by done.
      by rewrite lookup_delete_ne.
Qed.

Lemma same_stem_files_collide_witness :
  exists disk',
    resize_files black_resize sample_disk "dir" ["a.jpg"; "a.bmp"]%string = (disk', None) /\
    disk' !! "dir/a.png"%string = Some (ImageFile (black_resize width height picture_b)) /\
    disk' !! "dir/a.jpg"%string = None /\
    disk' !! "dir/a.bmp"%string = None /\
    forall other, other <> "dir/a.jpg"%string -> other <> "dir/a.bmp"%string ->
                  other <> "dir/a.png"%string ->
                  disk' !! other = sample_disk !! other.
Proof.
  apply (same_stem_files_collide black_resize sample_disk "dir" "a.jpg" "a.bmp"
           picture_a picture_b); by vm_compute.
Defined.

(** X19: the pass never adds to the number of files on the disk, whether it
    ends or stops at an error. *)
Theorem resize_never_adds_files (resized_to : Z -> Z -> picture -> picture)
    disk subdir files :
  (size (resize_files resized_to disk subdir files).1 <= size disk)%nat.
Proof.
  revert disk. induction files as [|f files IH]; intros disk; [done|].
  cbn [resize_files].
  assert (size (resize_file resized_to disk subdir f).1 <= size disk)%nat as Hstep.
  { unfold resize_file.
    destruct (disk !! os_path_join subdir f) as [[img|]|] eqn:Hf; cbn [fst]; try lia.
    rewrite map_size_insert, map_size_delete, Hf.
    pose proof (map_size_ne_0_lookup_2 disk (os_path_join subdir f) (mk_is_Some _ _ Hf)).
    destruct (delete _ disk !! _); cbn; lia. }
  destruct (resize_file resized_to disk subdir f) as [disk' [e|]]; [exact Hstep|].
  cbn [fst] in Hstep. specialize (IH disk'). lia.
Qed.

(** ** Names that end in ".png" *)

Lemma append_empty (t : string) : "" +:+ t = t.
Proof. reflexivity. Qed.

Lemma append_cons (a : ascii) (s t : string) : String a s +:+ t = String a (s +:+ t).
Proof. reflexivity. Qed.

Lemma rfind_app (c : ascii) (s t : string) :
  rfind c (s +:+ t)
  = match rfind c t with
    | Some i => Some (String.length s + i)%nat
    | None => rfind c s
    end.
Proof.
  induction s as [|a s IH]; rewrite ?append_empty, ?append_cons; cbn [rfind String.length].
  - by destruct (rfind c t).
  - rewrite IH. by destruct (rfind c t).
Qed.

Lemma rfind_lt (c : ascii) (s : string) (i : nat) :
  rfind c s = Some i -> (i < String.length s)%nat.
Proof.
  revert i. induction s as [|a s IH]; intros i; cbn [rfind String.length]; [discriminate|].
  destruct (rfind c s) as [j|].
  - intros [= <-]. specialize (IH j eq_refl). lia.
  - case_bool_decide; [|discriminate]. intros [= <-]. lia.
Qed.

Lemma substring_app_l (n m : nat) (s t : string) :
  (n + m <= String.length s)%nat -> substring n m (s +:+ t) = substring n m s.
Proof.
  revert n m. induction s as [|a s IH]; intros n m;
    rewrite ?append_empty, ?append_cons; cbn [String.length].
  - intros Hle. assert (n = O /\ m = O) as [-> ->] by lia. by destruct t.
  - destruct n as [|n]; cbn [substring].
    + destruct m as [|m]; [reflexivity|]. intros Hle. f_equal. apply IH. lia.
    + intros Hle. apply IH. lia.
Qed.

Lemma substring_whole (s : string) : substring 0 (String.length s) s = s.
Proof. induction s as [|a s IH]; [reflexivity|]. cbn. by rewrite IH. Qed.

Lemma substring_app_r (s t : string) :
  substring (String.length s) (String.length t) (s +:+ t) = t.
Proof.
  induction s as [|a s IH]; rewrite ?append_empty, ?append_cons;
    cbn [String.length substring].
  - apply substring_whole.
  - exact IH.
Qed.

Lemma length_app_string (s t : string) :
  String.length (s +:+ t) = (String.length s + String.length t)%nat.
Proof.
  induction s as [|a s IH]; [reflexivity|].
  rewrite append_cons. cbn [String.length]. by rewrite IH.
Qed.

(** A name whose last component has a character other than a dot before
    ".png" splits into that name and ".png". *)
Lemma splitext_png (stem : string) :
  has_non_dot (os_path_basename stem) = true ->
  os_path_splitext (stem +:+ ".png") = (stem, ".png"%string).
Proof.
  intros Hname. unfold os_path_splitext, os_path_basename, py_rfind in *.
  rewrite !rfind_app.
  change (rfind "/" ".png") with (@None nat).
  change (rfind "." ".png") with (Some 0%nat).
  cbv iota beta. rewrite Nat.add_0_r, Nat2Z.id.
  assert (Z.to_nat (match rfind "/" stem with
                    | Some i => Z.of_nat i
                    | None => -1
                    end + 1) <= String.length stem)%nat as Hsep.
  { destruct (rfind "/" stem) as [i|] eqn:Hi; [|lia].
    apply rfind_lt in Hi. lia. }
  assert ((match rfind "/" stem with
           | Some i => Z.of_nat i
           | None => -1
           end <? Z.of_nat (String.length stem)) = true) as ->.
  { apply Z.ltb_lt. destruct (rfind "/" stem) as [i|] eqn:Hi; [|lia].
    apply rfind_lt in Hi. lia. }
  rewrite substring_app_l by lia. rewrite Hname.
  rewrite substring_app_l by lia. rewrite substring_whole.
  rewrite length_app_string.
  replace (String.length stem + String.length ".png" - String.length stem)%nat
    with (String.length ".png") by lia.
  by rewrite substring_app_r.
Qed.

(** X20: a decodable image whose path ends in ".png", with a character
    other than a dot in the name before it, is rewritten in place: the path
    shows the resized picture, no file is removed or added, and every other
    file is left as it was. *)
Theorem png_file_is_rewritten_in_place (resized_to : Z -> Z -> picture -> picture)
    disk subdir file stem img :
  os_path_join subdir file = stem +:+ ".png" ->
  has_non_dot (os_path_basename stem) = true ->
  disk !! os_path_join subdir file = Some (ImageFile img) ->
  resize_file resized_to disk subdir file
  = (<[os_path_join subdir file := ImageFile (resized_to width height img)]> disk, None) /\
  dom (resize_file resized_to disk subdir file).1 = dom disk.
Proof.
  intros Hpath Hname Himg.
  assert (resize_file resized_to disk subdir file
          = (<[os_path_join subdir file := ImageFile (resized_to width height img)]> disk,
             None)) as Hstep.
  { rewrite (resize_file_image _ _ _ _ img) by done.
    rewrite Hpath, splitext_png by done. cbn [fst]. by rewrite insert_delete_eq. }
  split; [exact Hstep|]. rewrite Hstep. cbn [fst].
  apply dom_insert_lookup_L. by rewrite Himg.
Qed.

Lemma png_file_is_rewritten_in_place_witness :
  resize_file black_resize sample_disk "dir" "c.png"
  = (<["dir/c.png"%string := ImageFile (black_resize width height picture_a)]> sample_disk,
     None) /\
  dom (resize_file black_resize sample_disk "dir" "c.png").1 = dom sample_disk.
Proof.
  apply (png_file_is_rewritten_in_place black_resize sample_disk "dir" "c.png" "dir/c"
           picture_a); reflexivity.
Defined.
